(** * MTCHacks-2025: the consensus / overlay engine of the DICOM demo

    A shallow embedding of the geometric core of the viewer components
    (consensus detection, hover picking, overlay drawing, annotation
    deletion) and of the pathology region synthesizer of the demo page,
    followed by the properties proved about them.

    JavaScript numbers are IEEE 754 binary64 values, so they are embedded as
    Rocq's primitive floats: [<], [*], [-], [+] and [Math.sqrt] are the
    kernel's binary64 operations, and decimal literals denote the nearest
    binary64 value, as they do in JavaScript. *)

From Stdlib Require Import Floats ZArith Lia Ascii String.
From stdpp Require Import gmap strings list pretty.

Set Warnings "-inexact-float".

(** ** JavaScript values *)

Module JS.

Abbreviation number := float.

(** [ToBoolean] on a number: [0], [-0] and [NaN] are falsy. *)
Definition truthy (x : number) : bool :=
  negb ((x =? 0)%float || PrimFloat.is_nan x).

(** [ToBoolean] on a string: only the empty string is falsy. *)
Definition truthy_string (s : string) : bool :=
  negb (String.eqb s "").

(** [x || d] on numbers. *)
Definition or_number (x d : number) : number :=
  if truthy x then x else d.

(** [s || d] on strings. *)
Definition or_string (s d : string) : string :=
  if truthy_string s then s else d.

(** [a > b] is evaluated as [b < a]. *)
Definition gtb (a b : number) : bool := (b <? a)%float.

(** [Math.min(a, b)]: [NaN] if either argument is [NaN], and [-0] is
    smaller than [+0]. *)
Definition Math_min (a b : number) : number :=
  if PrimFloat.is_nan a then a
  else if PrimFloat.is_nan b then b
  else if (a <? b)%float then a
  else if (b <? a)%float then b
  else if (PrimFloat.get_sign a) then a else b.

Definition Math_PI : number := 3.141592653589793%float.

(** An integer loop counter as a number: [0], then [i++]. *)
Fixpoint of_nat (n : nat) : number :=
  match n with
  | O => 0%float
  | S n' => (of_nat n' + 1)%float
  end.

End JS.

(** ** The data model *)

(** [Annotation] of AnnotatableDicomViewer; its [type] field only ever holds
    the literal ["point"] and is left out. *)
Module Annotation.
Record t := mk {
  id : string;
  x : JS.number;
  y : JS.number;
  comment : string;
  color : string;
}.
End Annotation.

(** [HeatmapRegion] of DicomViewerWithOverlay; [label] and [explanation] are
    optional properties. *)
Module HeatmapRegion.
Record t := mk {
  x : JS.number;
  y : JS.number;
  radius : JS.number;
  intensity : JS.number;
  label : option string;
  explanation : option string;
}.
End HeatmapRegion.

(** [ConsensusRegion] of CombinedDicomViewer. *)
Module ConsensusRegion.
Record t := mk {
  x : JS.number;
  y : JS.number;
  radius : JS.number;
  clinicianAnnotation : Annotation.t;
  aiRegion : HeatmapRegion.t;
}.
End ConsensusRegion.

(** ** The canvas

    The 2D context is an external collaborator: it is embedded as the trace
    of the requests made on it.  A gradient object is the value built by
    [createRadialGradient] and its [addColorStop] calls; a template literal
    [`rgba(r, g, b, ${a})`] keeps its number as a number.  The width [W] and
    height [H] every drawing routine takes are the values read back from
    [canvas.width] and [canvas.height]. *)

Inductive Css :=
  | CssText (s : string)
  | CssRgba (r g b : nat) (alpha : JS.number).

Record RadialGradient := mkRadialGradient {
  gx0 : JS.number; gy0 : JS.number; gr0 : JS.number;
  gx1 : JS.number; gy1 : JS.number; gr1 : JS.number;
  colorStops : list (JS.number * Css);
}.

Inductive Style :=
  | StyleCss (c : Css)
  | StyleGradient (g : RadialGradient).

Inductive CanvasOp :=
  | ClearRect (x0 y0 w h : JS.number)
  | SetFillStyle (s : Style)
  | SetStrokeStyle (s : Style)
  | SetLineWidth (w : JS.number)
  | SetLineDash (segments : list JS.number)
  | SetFont (f : string)
  | SetTextAlign (a : string)
  | SetTextBaseline (b : string)
  | BeginPath
  | Arc (x0 y0 r startAngle endAngle : JS.number)
  | Fill
  | Stroke
  | FillRect (x0 y0 w h : JS.number)
  | StrokeRect (x0 y0 w h : JS.number)
  | FillText (text : string) (x0 y0 : JS.number).

(** The outer radii of the gradients a trace paints with, in drawing order. *)
Definition gradientRadii (ops : list CanvasOp) : list JS.number :=
  omap (fun op => match op with
                  | SetFillStyle (StyleGradient g) => Some (gr1 g)
                  | _ => None
                  end) ops.

(** A circle given in normalized coordinates lies within the image. *)
Definition withinImage (x y radius : JS.number) : bool :=
  ((0 <=? x - radius) && (x + radius <=? 1)
   && (0 <=? y - radius) && (y + radius <=? 1))%float.

(** ** CombinedDicomViewer *)

Module CombinedDicomViewer.

Local Open Scope float_scope.

(** The [distance] computed in the body of [detectConsensus]. *)
Definition distance (annotation : Annotation.t) (region : HeatmapRegion.t) : JS.number :=
  let dx := Annotation.x annotation - HeatmapRegion.x region in
  let dy := Annotation.y annotation - HeatmapRegion.y region in
  PrimFloat.sqrt (dx * dx + dy * dy).

(** [detectConsensus]: two nested [forEach] loops pushing onto [detected]. *)
Definition detectConsensus (clinicianAnnotations : list Annotation.t)
    (aiRegions : list HeatmapRegion.t) : list ConsensusRegion.t :=
  foldl (fun detected annotation =>
    foldl (fun detected region =>
      if distance annotation region <? HeatmapRegion.radius region then
        detected ++ [ {| ConsensusRegion.x := Annotation.x annotation;
                         ConsensusRegion.y := Annotation.y annotation;
                         ConsensusRegion.radius := HeatmapRegion.radius region * 0.8;
                         ConsensusRegion.clinicianAnnotation := annotation;
                         ConsensusRegion.aiRegion := region |} ]
      else detected)
      detected aiRegions)
    [] clinicianAnnotations.

(** What one pass of the inner loop body adds to [detected]; the loops are
    related to it by [detectConsensus_flat_map] below. *)
Definition pushed (annotation : Annotation.t) (region : HeatmapRegion.t)
    : list ConsensusRegion.t :=
  if distance annotation region <? HeatmapRegion.radius region then
    [ ConsensusRegion.mk (Annotation.x annotation) (Annotation.y annotation)
                         (HeatmapRegion.radius region * 0.8) annotation region ]
  else [].

(** The marker of one clinician annotation, the body of the last
    [forEach] of [drawOverlays]. *)
Definition drawMarker (W H : JS.number) (index : nat) (annotation : Annotation.t)
    : list CanvasOp :=
  let x := Annotation.x annotation * W in
  let y := Annotation.y annotation * H in
  let pin := StyleCss (CssText (JS.or_string (Annotation.color annotation)
                                             "rgba(59, 130, 246, 1)")) in
  [ SetFillStyle pin; BeginPath; Arc x y 12 0 (2 * JS.Math_PI); Fill;
    SetStrokeStyle (StyleCss (CssText "white")); SetLineWidth 3; Stroke;
    SetFillStyle (StyleCss (CssText "white")); SetFont "bold 13px sans-serif";
    SetTextAlign "center"; SetTextBaseline "middle";
    FillText (pretty (index + 1)%nat) x y ]
  ++ (if JS.truthy_string (Annotation.comment annotation) then
        [ SetFillStyle pin; BeginPath; Arc (x + 16) (y - 16) 8 0 (2 * JS.Math_PI); Fill;
          SetStrokeStyle (StyleCss (CssText "white")); SetLineWidth 2; Stroke;
          SetFillStyle (StyleCss (CssText "white")); SetFont "bold 10px sans-serif";
          SetTextAlign "center"; SetTextBaseline "middle";
          FillText "i" (x + 16) (y - 16) ]
      else []).

(** The heatmap of one AI region, the body of the first [forEach]. *)
Definition drawRegion (W H : JS.number) (region : HeatmapRegion.t) : list CanvasOp :=
  let x := HeatmapRegion.x region * W in
  let y := HeatmapRegion.y region * H in
  let radius := HeatmapRegion.radius region * W in
  let alpha := JS.or_number (HeatmapRegion.intensity region) 0.3 in
  let gradient :=
    {| gx0 := x; gy0 := y; gr0 := 0; gx1 := x; gy1 := y; gr1 := radius;
       colorStops := [ (0, CssRgba 251 146 60 alpha);
                       (0.5, CssRgba 251 191 36 (alpha * 0.6));
                       (1, CssText "rgba(251, 191, 36, 0)") ] |} in
  [ SetFillStyle (StyleGradient gradient); BeginPath;
    Arc x y radius 0 (2 * JS.Math_PI); Fill;
    SetStrokeStyle (StyleCss (CssText "rgba(251, 146, 60, 0.6)"));
    SetLineWidth 2; Stroke ].

(** The green halo of one consensus region. *)
Definition drawConsensus (W H : JS.number) (consensus : ConsensusRegion.t) : list CanvasOp :=
  let x := ConsensusRegion.x consensus * W in
  let y := ConsensusRegion.y consensus * H in
  let radius := ConsensusRegion.radius consensus * W in
  let gradient :=
    {| gx0 := x; gy0 := y; gr0 := 0; gx1 := x; gy1 := y; gr1 := radius;
       colorStops := [ (0, CssText "rgba(34, 197, 94, 0.3)");
                       (0.5, CssText "rgba(34, 197, 94, 0.2)");
                       (1, CssText "rgba(34, 197, 94, 0)") ] |} in
  [ SetFillStyle (StyleGradient gradient); BeginPath;
    Arc x y radius 0 (2 * JS.Math_PI); Fill;
    SetStrokeStyle (StyleCss (CssText "rgba(34, 197, 94, 0.8)"));
    SetLineWidth 3; Stroke ].

(** [drawOverlays] on a canvas of width [W] and height [H]. *)
Definition drawOverlays (W H : JS.number)
    (aiRegions : list HeatmapRegion.t)
    (clinicianAnnotations : list Annotation.t)
    (showConsensus : bool)
    (consensusRegions : list ConsensusRegion.t) : list CanvasOp :=
  [ ClearRect 0 0 W H ]
  ++ flat_map (drawRegion W H) aiRegions
  ++ (if showConsensus then flat_map (drawConsensus W H) consensusRegions else [])
  ++ concat (imap (drawMarker W H) clinicianAnnotations).

End CombinedDicomViewer.

(** ** DicomViewerWithOverlay *)

Module DicomViewerWithOverlay.

Local Open Scope float_scope.

(** Within [drawHeatmap] the hovered region is given by its position in the
    [regions] array being drawn ([None] when the hovered object is not an
    element of it): [hoveredRegion === region] holds at that position. *)
Definition isHovered (hoveredRegion : option nat) (index : nat) : bool :=
  bool_decide (hoveredRegion = Some index).

(** The first [forEach] of [drawHeatmap]: one gradient per region, painted
    over the whole canvas. *)
Definition drawGradient (W H : JS.number) (region : HeatmapRegion.t) : list CanvasOp :=
  let gradient0 :=
    mkRadialGradient
      (HeatmapRegion.x region * W) (HeatmapRegion.y region * H) 0
      (HeatmapRegion.x region * W) (HeatmapRegion.y region * H)
      (HeatmapRegion.radius region * JS.Math_min W H) in
  let alpha := HeatmapRegion.intensity region * 0.5 in
  let gradient :=
    gradient0 [ (0, CssRgba 255 0 0 alpha);
                (0.5, CssRgba 255 165 0 (alpha * 0.6));
                (1, CssText "rgba(255, 165, 0, 0)") ] in
  [ SetFillStyle (StyleGradient gradient); FillRect 0 0 W H ].

(** The second [forEach]: the dashed box and the label. *)
Definition drawBox (W H : JS.number) (hoveredRegion : option nat)
    (index : nat) (region : HeatmapRegion.t) : list CanvasOp :=
  let hovered := isHovered hoveredRegion index in
  let boxSize := HeatmapRegion.radius region * JS.Math_min W H * 1.5 in
  let x := HeatmapRegion.x region * W - boxSize / 2 in
  let y := HeatmapRegion.y region * H - boxSize / 2 in
  [ SetStrokeStyle (StyleCss (CssRgba 255 0 0
                      (if hovered then 1 else HeatmapRegion.intensity region)));
    SetLineWidth (if hovered then 4 else 3);
    SetLineDash [5; 5];
    StrokeRect x y boxSize boxSize ]
  ++ match HeatmapRegion.label region with
     | Some label =>
         if JS.truthy_string label then
           [ SetFont "bold 12px system-ui";
             SetFillStyle (StyleCss (CssText (if hovered then "rgba(255, 0, 0, 1)"
                                              else "rgba(255, 0, 0, 0.9)")));
             FillText label (x + 5) (y + 15) ]
         else []
     | None => []
     end.

(** [drawHeatmap] over the resolved [regions] array (the [heatmapRegions]
    property when it is given). *)
Definition drawHeatmap (W H : JS.number) (regions : list HeatmapRegion.t)
    (hoveredRegion : option nat) : list CanvasOp :=
  [ ClearRect 0 0 W H ]
  ++ flat_map (drawGradient W H) regions
  ++ concat (imap (drawBox W H hoveredRegion) regions).

(** The test of the hover loop. *)
Definition contains (x y : JS.number) (region : HeatmapRegion.t) : bool :=
  let dx := x - HeatmapRegion.x region in
  let dy := y - HeatmapRegion.y region in
  let distance := PrimFloat.sqrt (dx * dx + dy * dy) in
  distance <? HeatmapRegion.radius region.

(** The [for ... of] loop of [handleCanvasMouseMove], from position [index]
    on: [foundRegion] is the first region that contains the point, [None]
    standing for [null]. *)
Fixpoint findRegion (x y : JS.number) (index : nat) (regions : list HeatmapRegion.t)
    : option (nat * HeatmapRegion.t) :=
  match regions with
  | [] => None
  | region :: rest =>
      if contains x y region then Some (index, region)
      else findRegion x y (S index) rest
  end.

Record DOMRect := mkDOMRect {
  left : JS.number; top : JS.number; width : JS.number; height : JS.number;
}.

(** An object reference to a region: the address of the object, with the
    contents found there (a region is never mutated).  Every array of
    regions holds such references, and so does the [hoveredRegion] state. *)
Record Reference := mkReference {
  address : nat;
  target : HeatmapRegion.t;
}.

(** [a === b] on values that are a reference or [null]: the same address, or
    both [null]. *)
Definition sameObject (a b : option Reference) : bool :=
  bool_decide (address <$> a = address <$> b).

(** The [for ... of] loop of [handleCanvasMouseMove] over the references the
    array holds: [foundRegion], [None] standing for [null]. *)
Fixpoint findReference (x y : JS.number) (regions : list Reference)
    : option Reference :=
  match regions with
  | [] => None
  | region :: rest =>
      if contains x y (target region) then Some region
      else findReference x y rest
  end.

(** [handleCanvasMouseMove]: the new [hoveredRegion] state and the argument
    [onRegionHover] is called with, if it is called. *)
Definition handleCanvasMouseMove (heatmapRegions : option (list Reference))
    (rect : DOMRect) (clientX clientY : JS.number) (hoveredRegion : option Reference)
    : option Reference * option (option Reference) :=
  match heatmapRegions with
  | None => (hoveredRegion, None)
  | Some regions =>
      let x := (clientX - left rect) / width rect in
      let y := (clientY - top rect) / height rect in
      let foundRegion := findReference x y regions in
      if sameObject foundRegion hoveredRegion then (hoveredRegion, None)
      else (foundRegion, Some foundRegion)
  end.

(** [handleCanvasMouseLeave]: the state is reset and [onRegionHover] is
    called with [null]. *)
Definition handleCanvasMouseLeave (hoveredRegion : option Reference)
    : option Reference * option (option Reference) :=
  (None, Some None).

Section GenerateHeatmapRegions.

(** [Number.prototype.toFixed(0)], the builtin that formats the percentage
    of the explanation text. *)
Variable toFixed0 : JS.number -> string.

(** [generateHeatmapRegions]: the simulated regions drawn when no
    [heatmapRegions] are given; the [for] loop runs [i] from [0] to
    [numRegions - 1]. *)
Definition generateHeatmapRegions (intensity : JS.number) : list HeatmapRegion.t :=
  if intensity <? 0.3 then []
  else
    let numRegions := if JS.gtb intensity 0.7 then 2%nat else 1%nat in
    map (fun i : nat =>
           {| HeatmapRegion.x := 0.35 + JS.of_nat i * 0.25;
              HeatmapRegion.y := 0.4 + JS.of_nat i * 0.2;
              HeatmapRegion.radius := 0.2 + intensity * 0.1;
              HeatmapRegion.intensity := intensity;
              HeatmapRegion.label := Some ("Region " +:+ pretty (i + 1)%nat);
              HeatmapRegion.explanation :=
                Some ("AI detected potential finding with "
                      +:+ toFixed0 (intensity * 100) +:+ "% confidence") |})
        (seq 0 numRegions).

(** The constant [regions] of [drawHeatmap]:
    [heatmapRegions || generateHeatmapRegions(heatmapIntensity)]; an array,
    the empty one too, is truthy. *)
Definition regionsToDraw (heatmapRegions : option (list HeatmapRegion.t))
    (heatmapIntensity : JS.number) : list HeatmapRegion.t :=
  match heatmapRegions with
  | Some regions => regions
  | None => generateHeatmapRegions heatmapIntensity
  end.

End GenerateHeatmapRegions.

End DicomViewerWithOverlay.

(** ** AnnotatableDicomViewer *)

Module AnnotatableDicomViewer.

Local Open Scope float_scope.

(** [drawSingleAnnotation]. *)
Definition drawSingleAnnotation (annotation : Annotation.t)
    (canvasWidth canvasHeight : JS.number) (annotationNumber : nat) : list CanvasOp :=
  if negb (JS.truthy (Annotation.x annotation)) || negb (JS.truthy (Annotation.y annotation))
  then []
  else
    let x := Annotation.x annotation * canvasWidth in
    let y := Annotation.y annotation * canvasHeight in
    let pin := StyleCss (CssText (JS.or_string (Annotation.color annotation)
                                               "rgba(59, 130, 246, 1)")) in
    [ SetFillStyle pin; BeginPath; Arc x y 12 0 (2 * JS.Math_PI); Fill;
      SetStrokeStyle (StyleCss (CssText "white")); SetLineWidth 3; Stroke;
      SetFillStyle (StyleCss (CssText "white")); SetFont "bold 13px sans-serif";
      SetTextAlign "center"; SetTextBaseline "middle";
      FillText (pretty annotationNumber) x y ]
    ++ (if JS.truthy_string (Annotation.comment annotation) then
          [ SetFillStyle pin; BeginPath; Arc (x + 16) (y - 16) 8 0 (2 * JS.Math_PI); Fill;
            SetStrokeStyle (StyleCss (CssText "white")); SetLineWidth 2; Stroke;
            SetFillStyle (StyleCss (CssText "white")); SetFont "bold 10px sans-serif";
            SetTextAlign "center"; SetTextBaseline "middle";
            FillText "i" (x + 16) (y - 16) ]
        else []).

(** [drawAnnotations] on a canvas of the given size. *)
Definition drawAnnotations (canvasWidth canvasHeight : JS.number)
    (annotations : list Annotation.t) : list CanvasOp :=
  [ ClearRect 0 0 canvasWidth canvasHeight ]
  ++ concat (imap (fun index annotation =>
                     drawSingleAnnotation annotation canvasWidth canvasHeight (index + 1))
                  annotations).

(** [handleDeleteAnnotation]: the list handed to [onAnnotationsChange]. *)
Definition handleDeleteAnnotation (annotations : list Annotation.t) (id : string)
    : list Annotation.t :=
  filter (fun a => Annotation.id a ≠ id) annotations.

(** The UI state of the viewer. *)
Record State := mkState {
  drawingMode : bool;
  showCommentDialog : bool;
  pendingAnnotation : option Annotation.t;
  commentText : string;
}.

(** What a handler does besides updating the state: the list it hands to
    [onAnnotationsChange] and the toast it shows, if any. *)
Record Effects := mkEffects {
  onAnnotationsChange : option (list Annotation.t);
  toast : option (string * string);
}.

(** [handleCanvasClick]; [now] is [Date.now().toString()]. *)
Definition handleCanvasClick (now : string) (rect : DicomViewerWithOverlay.DOMRect)
    (clientX clientY : JS.number) (state : State) : State :=
  if negb (drawingMode state) then state
  else
    let x := (clientX - DicomViewerWithOverlay.left rect)
             / DicomViewerWithOverlay.width rect in
    let y := (clientY - DicomViewerWithOverlay.top rect)
             / DicomViewerWithOverlay.height rect in
    let newAnnotation :=
      {| Annotation.id := now;
         Annotation.x := x;
         Annotation.y := y;
         Annotation.comment := "";
         Annotation.color := "rgba(59, 130, 246, 1)" |} in
    {| drawingMode := drawingMode state;
       showCommentDialog := true;
       pendingAnnotation := Some newAnnotation;
       commentText := commentText state |}.

(** [handleSaveComment]. *)
Definition handleSaveComment (annotations : list Annotation.t) (state : State)
    : State * Effects :=
  let effects :=
    match pendingAnnotation state with
    | Some pending =>
        let newAnnotation :=
          {| Annotation.id := Annotation.id pending;
             Annotation.x := Annotation.x pending;
             Annotation.y := Annotation.y pending;
             Annotation.comment := commentText state;
             Annotation.color := Annotation.color pending |} in
        let updatedAnnotations := annotations ++ [newAnnotation] in
        {| onAnnotationsChange := Some updatedAnnotations;
           toast := Some ("Annotation added"%string,
                          if JS.truthy_string (commentText state)
                          then String.append (String "034" (substring 0 30 (commentText state)))
                                             (String.append "..." (String "034" ""))
                          else "No comment"%string) |}
    | None => {| onAnnotationsChange := None; toast := None |}
    end in
  ({| drawingMode := false;
      showCommentDialog := false;
      pendingAnnotation := None;
      commentText := "" |}, effects).

(** The Cancel button of the comment dialog. *)
Definition handleCancel (state : State) : State :=
  {| drawingMode := drawingMode state;
     showCommentDialog := false;
     pendingAnnotation := None;
     commentText := "" |}.

End AnnotatableDicomViewer.

(** ** The demo page: the pathology region synthesizer *)

(** How a call completes: with a value, or by throwing. *)
Inductive Completion (A : Type) :=
  | Return (value : A)
  | Throw (error : string).
Arguments Return {A} value.
Arguments Throw {A} error.

(** Property lookup [obj[key]] on an object literal used as a table: an own
    property, else a member inherited from [Object.prototype], else
    [undefined].  The keys looked up are in lower case (a literal, or the
    result of [toLowerCase]), and the members of [Object.prototype] with a
    lower-case name are its [constructor] and the [__proto__] accessor. *)
Inductive Property (V : Type) :=
  | Own (value : V)
  | Inherited (name : string)
  | Undefined.
Arguments Own {V} value.
Arguments Inherited {V} name.
Arguments Undefined {V}.

Definition Object_prototype : list string := [ "constructor"; "__proto__" ].

Definition getProperty {V : Type} (obj : gmap string V) (key : string) : Property V :=
  match obj !! key with
  | Some value => Own value
  | None => if bool_decide (key ∈ Object_prototype) then Inherited key else Undefined
  end.

(** [p || q] on looked-up properties: own entries of the tables (objects and
    arrays, the empty array too) and the inherited members are truthy. *)
Definition or_property {V : Type} (p q : Property V) : Property V :=
  match p with
  | Undefined => q
  | _ => p
  end.

(** The regular expression [/chestradiography_([a-z_]+)/i]. *)
Module Regex.

Definition isUpper (c : ascii) : bool :=
  let n := nat_of_ascii c in (65 <=? n)%nat && (n <=? 90)%nat.

Definition isLower (c : ascii) : bool :=
  let n := nat_of_ascii c in (97 <=? n)%nat && (n <=? 122)%nat.

Definition toLower (c : ascii) : ascii :=
  if isUpper c then ascii_of_nat (nat_of_ascii c + 32) else c.

(** [String.prototype.toLowerCase] on a run of ASCII letters and
    underscores. *)
Fixpoint toLowerCase (s : string) : string :=
  match s with
  | EmptyString => EmptyString
  | String c rest => String (toLower c) (toLowerCase rest)
  end.

(** The class [[a-z_]] under the [i] flag. *)
Definition wordChar (c : ascii) : bool :=
  isLower c || isUpper c || Ascii.eqb c "_".

(** The text after a case-insensitive occurrence of [pattern] at the start
    of [s]. *)
Fixpoint literal (pattern s : string) : option string :=
  match pattern, s with
  | EmptyString, _ => Some s
  | String p pattern', String c s' =>
      if Ascii.eqb (toLower p) (toLower c) then literal pattern' s' else None
  | String _ _, EmptyString => None
  end.

(** The longest prefix of [s] made of [wordChar]s: a greedy [+] with
    nothing after it. *)
Fixpoint greedy (s : string) : string :=
  match s with
  | String c s' => if wordChar c then String c (greedy s') else EmptyString
  | EmptyString => EmptyString
  end.

(** [s.match(/chestradiography_([a-z_]+)/i)]: capture group 1 of the
    leftmost match, [None] standing for [null]. *)
Fixpoint matchPathology (s : string) : option string :=
  match s with
  | EmptyString => None
  | String _ s' =>
      match literal "chestradiography_" s with
      | Some after =>
          match greedy after with
          | EmptyString => matchPathology s'
          | group => Some group
          end
      | None => matchPathology s'
      end
  end.

End Regex.

(** The analysis response, with the fields the synthesizer reads. *)
Module AIResponse.
Record response_t := mkResponse {
  score : option JS.number;
  model : option string;
}.
Record results_t := mkResults {
  response : option response_t;
}.
Record t := mk {
  model_id : option string;
  results : option results_t;
}.

(** A success response of the inference service, as the demo page receives
    it: [{ success: true, model_id, results: { response: { score, model } } }]. *)
Definition success (model_id : string) (score : JS.number) : t :=
  {| model_id := Some model_id;
     results := Some {| response := Some {| score := Some score;
                                            model := Some model_id |} |} |}.
End AIResponse.

Module Demo.

Local Open Scope float_scope.

Record PathologyInfo := mkPathologyInfo {
  fullName : string;
  description : string;
  secondaryFindings : option (list string);
}.

Record RegionTemplate := mkRegionTemplate {
  tx : JS.number;
  ty : JS.number;
  tradius : JS.number;
  tdescription : string;
}.

Definition PATHOLOGY_INFO : gmap string PathologyInfo :=
  list_to_map [
    ("atelectasis",
     {| fullName := "Atelectasis";
        description := "Collapse or closure of lung tissue detected. This finding shows characteristic opacity consistent with atelectasis, often caused by airway obstruction, compression, or post-surgical changes.";
        secondaryFindings := Some
          ["Adjacent tissue changes observed. May indicate volume loss or compensatory hyperinflation in neighboring lung segments.";
           "Mild mediastinal shift noted, consistent with volume loss in affected region."] |});
    ("pneumothorax",
     {| fullName := "Pneumothorax";
        description := "Air accumulation detected in pleural space. Visible absence of lung markings with potential visceral pleural line, indicating separation of lung from chest wall.";
        secondaryFindings := Some
          ["Lung edge visualization suggests partial lung collapse.";
           "Possible tension signs: mediastinal shift or diaphragm depression may be present."] |});
    ("cardiomegaly",
     {| fullName := "Cardiomegaly";
        description := "Enlarged cardiac silhouette detected. Cardiothoracic ratio appears increased, suggesting possible cardiac chamber enlargement or pericardial effusion.";
        secondaryFindings := Some
          ["Vascular congestion patterns may indicate associated heart failure.";
           "Pulmonary vascular redistribution suggestive of elevated pulmonary venous pressure."] |});
    ("lung_opacity",
     {| fullName := "Lung Opacity";
        description := "Abnormal opacity detected in lung parenchyma. This finding may represent consolidation, infiltrate, mass, or other pathological process requiring clinical correlation.";
        secondaryFindings := Some
          ["Air bronchograms may be present, suggesting alveolar filling process.";
           "Pattern suggests possible infectious, inflammatory, or neoplastic etiology."] |});
    ("pleural_effusion",
     {| fullName := "Pleural Effusion";
        description := "Fluid accumulation detected in pleural space. Characteristic blunting of costophrenic angle or meniscus sign indicates pleural fluid collection.";
        secondaryFindings := Some
          ["Compressive atelectasis may be present in adjacent lung tissue.";
           "Layering pattern suggests free-flowing pleural fluid."] |});
    ("consolidation",
     {| fullName := "Consolidation";
        description := "Dense airspace opacity detected consistent with alveolar consolidation. Pattern suggests filling of alveolar spaces with fluid, pus, blood, or cells.";
        secondaryFindings := Some
          ["Air bronchograms visible within consolidated region.";
           "Lobar or segmental distribution pattern noted."] |});
    ("infiltration",
     {| fullName := "Infiltration";
        description := "Pulmonary infiltrate detected showing increased interstitial or alveolar markings. Pattern may represent infection, inflammation, or other pathological process.";
        secondaryFindings := Some
          ["Bilateral distribution suggests diffuse process.";
           "Reticular or nodular pattern indicates interstitial involvement."] |});
    ("pleural_thickening",
     {| fullName := "Pleural Thickening";
        description := "Abnormal pleural thickening detected. Findings consistent with chronic pleural changes, possibly from prior inflammation, infection, or asbestos exposure.";
        secondaryFindings := Some
          ["Localized pleural irregularity noted.";
           "May represent sequelae of prior empyema or hemothorax."] |});
    ("aortic_enlargement",
     {| fullName := "Aortic Enlargement";
        description := "Widened aortic contour detected. Finding suggests possible aortic aneurysm, atherosclerotic changes, or other vascular abnormality requiring further evaluation.";
        secondaryFindings := Some
          ["Aortic calcification may be present.";
           "Mediastinal widening consistent with vascular enlargement."] |});
    ("calcification",
     {| fullName := "Calcification";
        description := "Calcified density detected within lung parenchyma or associated structures. May represent granuloma from prior infection, healed tuberculosis, or other benign processes.";
        secondaryFindings := Some
          ["Multiple calcified nodules suggest prior granulomatous disease.";
           "Pattern consistent with old healed infection."] |});
    ("pulmonary_fibrosis",
     {| fullName := "Pulmonary Fibrosis";
        description := "Interstitial changes consistent with pulmonary fibrosis detected. Reticular pattern and volume loss suggest chronic scarring of lung tissue.";
        secondaryFindings := Some
          ["Honeycombing pattern may indicate advanced fibrotic changes.";
           "Bilateral lower lobe predominance noted, typical of usual interstitial pneumonia pattern."] |});
    ("normal",
     {| fullName := "Normal";
        description := "No significant abnormalities detected. Lung fields appear clear with normal cardiac silhouette, mediastinal contours, and bony structures.";
        secondaryFindings := Some
          [] |})
  ].

Definition PATHOLOGY_REGIONS : gmap string (list RegionTemplate) :=
  list_to_map [
    ("atelectasis",
      [mkRegionTemplate 0.30 0.35 0.18 "Left upper/mid lung zone";
       mkRegionTemplate 0.70 0.35 0.18 "Right upper/mid lung zone"]);
    ("pneumothorax",
      [mkRegionTemplate 0.25 0.25 0.15 "Left apical region";
       mkRegionTemplate 0.75 0.25 0.15 "Right apical region"]);
    ("cardiomegaly",
      [mkRegionTemplate 0.50 0.60 0.28 "Cardiac silhouette enlargement"]);
    ("lung_opacity",
      [mkRegionTemplate 0.35 0.45 0.20 "Left lung field";
       mkRegionTemplate 0.65 0.45 0.20 "Right lung field"]);
    ("pleural_effusion",
      [mkRegionTemplate 0.30 0.72 0.18 "Left costophrenic angle blunting";
       mkRegionTemplate 0.70 0.72 0.18 "Right costophrenic angle blunting"]);
    ("consolidation",
      [mkRegionTemplate 0.35 0.52 0.18 "Left lower lobe";
       mkRegionTemplate 0.65 0.52 0.18 "Right lower lobe"]);
    ("infiltration",
      [mkRegionTemplate 0.35 0.42 0.22 "Left perihilar/central region";
       mkRegionTemplate 0.65 0.42 0.22 "Right perihilar/central region"]);
    ("pleural_thickening",
      [mkRegionTemplate 0.18 0.50 0.12 "Left lateral pleural margin";
       mkRegionTemplate 0.82 0.50 0.12 "Right lateral pleural margin"]);
    ("aortic_enlargement",
      [mkRegionTemplate 0.45 0.28 0.16 "Aortic arch/knob widening"]);
    ("calcification",
      [mkRegionTemplate 0.50 0.55 0.18 "Cardiac/vascular calcification"]);
    ("pulmonary_fibrosis",
      [mkRegionTemplate 0.35 0.58 0.20 "Left lower zone reticular pattern";
       mkRegionTemplate 0.65 0.58 0.20 "Right lower zone reticular pattern"]);
    ("ild",
      [mkRegionTemplate 0.35 0.48 0.22 "Left mid/lower zone interstitial pattern";
       mkRegionTemplate 0.65 0.48 0.22 "Right mid/lower zone interstitial pattern"]);
    ("normal",
      [])
  ].

(** [aiResponse.results?.response]. *)
Definition responseOf (aiResponse : AIResponse.t) : option AIResponse.response_t :=
  match AIResponse.results aiResponse with
  | Some results => AIResponse.response results
  | None => None
  end.

(** [aiResponse.results?.response?.score || 0]. *)
Definition scoreOf (aiResponse : AIResponse.t) : JS.number :=
  match responseOf aiResponse with
  | Some response =>
      match AIResponse.score response with
      | Some score => JS.or_number score 0
      | None => 0
      end
  | None => 0
  end.

(** [aiResponse.model_id || aiResponse.results?.response?.model || ""]. *)
Definition modelIdOf (aiResponse : AIResponse.t) : string :=
  let model :=
    match responseOf aiResponse with
    | Some response =>
        match AIResponse.model response with
        | Some model => JS.or_string model ""
        | None => ""%string
        end
    | None => ""%string
    end in
  match AIResponse.model_id aiResponse with
  | Some model_id => if JS.truthy_string model_id then model_id else model
  | None => model
  end.

(** The pathology key extracted from the model identifier. *)
Definition pathologyKeyOf (aiResponse : AIResponse.t) : string :=
  match Regex.matchPathology (modelIdOf aiResponse) with
  | Some group => Regex.toLowerCase group
  | None => "lung_opacity"
  end.

(** [pathologyInfo.secondaryFindings?.[0]] when it is truthy. *)
Definition firstSecondaryFinding (pathologyInfo : Property PathologyInfo) : option string :=
  match pathologyInfo with
  | Own info =>
      match secondaryFindings info with
      | Some (finding :: _) => if JS.truthy_string finding then Some finding else None
      | _ => None
      end
  | _ => None
  end.

(** [pathologyInfo.fullName] and [pathologyInfo.description]; an inherited
    member has neither property. *)
Definition fullNameOf (pathologyInfo : Property PathologyInfo) : option string :=
  match pathologyInfo with Own info => Some (fullName info) | _ => None end.

Definition descriptionOf (pathologyInfo : Property PathologyInfo) : option string :=
  match pathologyInfo with Own info => Some (description info) | _ => None end.

(** The constant [pathologyInfo]:
    [PATHOLOGY_INFO[pathologyKey] || PATHOLOGY_INFO["lung_opacity"]]. *)
Definition pathologyInfoOf (aiResponse : AIResponse.t) : Property PathologyInfo :=
  or_property (getProperty PATHOLOGY_INFO (pathologyKeyOf aiResponse))
              (getProperty PATHOLOGY_INFO "lung_opacity").

(** The constant [anatomicalRegions]:
    [PATHOLOGY_REGIONS[pathologyKey] || PATHOLOGY_REGIONS["lung_opacity"]]. *)
Definition anatomicalRegionsOf (aiResponse : AIResponse.t)
    : Property (list RegionTemplate) :=
  or_property (getProperty PATHOLOGY_REGIONS (pathologyKeyOf aiResponse))
              (getProperty PATHOLOGY_REGIONS "lung_opacity").

(** [generateRegionsFromAIResponse] of the demo page with the combined
    view. *)
Definition generateRegionsFromAIResponse (aiResponse : AIResponse.t)
    : Completion (list HeatmapRegion.t) :=
  let score := scoreOf aiResponse in
  let pathologyInfo := pathologyInfoOf aiResponse in
  if score <? 0.3 then Return []
  else
    match anatomicalRegionsOf aiResponse with
    | Own [] => Return []
    | Own (primaryRegion :: others) =>
        let regions :=
          [ {| HeatmapRegion.x := tx primaryRegion;
               HeatmapRegion.y := ty primaryRegion;
               HeatmapRegion.radius := tradius primaryRegion;
               HeatmapRegion.intensity := score;
               HeatmapRegion.label := fullNameOf pathologyInfo;
               HeatmapRegion.explanation := descriptionOf pathologyInfo |} ] in
        match others with
        | secondaryRegion :: _ =>
            if JS.gtb score 0.6 then
              let secondaryLabel :=
                match firstSecondaryFinding pathologyInfo with
                | Some _ => Some "Secondary Finding"%string
                | None => fullNameOf pathologyInfo
                end in
              let secondaryExplanation :=
                match firstSecondaryFinding pathologyInfo with
                | Some finding => finding
                | None => tdescription secondaryRegion
                end in
              Return (regions ++
                [ {| HeatmapRegion.x := tx secondaryRegion;
                     HeatmapRegion.y := ty secondaryRegion;
                     HeatmapRegion.radius := tradius secondaryRegion;
                     HeatmapRegion.intensity := score * 0.85;
                     HeatmapRegion.label := secondaryLabel;
                     HeatmapRegion.explanation := Some secondaryExplanation |} ])
            else Return regions
        | [] => Return regions
        end
    | Inherited _ =>
        (* [anatomicalRegions.length] is [1] for the [Object] function and
           [undefined] for [Object.prototype], not [0], and
           [anatomicalRegions[0]] is [undefined]: reading [primaryRegion.x]
           throws *)
        Throw "TypeError"
    | Undefined =>
        (* reading [anatomicalRegions.length] throws *)
        Throw "TypeError"
    end.

(** An entry of [AVAILABLE_MODELS]. *)
Record Model := mkModel {
  key : string;
  mlabel : string;
  mdescription : string;
}.

Definition AVAILABLE_MODELS : list Model :=
  [ mkModel "auto" "Auto-detect (Comprehensive)" "Test all models";
    mkModel "atelectasis" "Atelectasis" "Lung collapse";
    mkModel "pneumothorax" "Pneumothorax" "Air in pleural space";
    mkModel "cardiomegaly" "Cardiomegaly" "Enlarged heart";
    mkModel "lung_opacity" "Lung Opacity" "Abnormal lung density";
    mkModel "pleural_effusion" "Pleural Effusion" "Fluid in pleura";
    mkModel "consolidation" "Consolidation" "Airspace filling";
    mkModel "infiltration" "Infiltration" "Infiltrate pattern";
    mkModel "pleural_thickening" "Pleural Thickening" "Thickened pleura";
    mkModel "aortic_enlargement" "Aortic Enlargement" "Widened aorta";
    mkModel "calcification" "Calcification" "Calcium deposits";
    mkModel "pulmonary_fibrosis" "Pulmonary Fibrosis" "Lung scarring";
    mkModel "ild" "ILD" "Interstitial lung disease";
    mkModel "normal" "Normal" "No abnormalities" ].

(** The model identifier [handleAnalyzeWithAI] sends for a selected model:
    [`mc_chestradiography_${selectedModel}:v1.20250828`]. *)
Definition modelIdFor (selectedModel : string) : string :=
  "mc_chestradiography_" +:+ selectedModel +:+ ":v1.20250828".

(** The name in the toast of [handleAnalyzeWithAI]:
    [PATHOLOGY_INFO[key]?.fullName || "Finding"] on a match, else
    ["Finding"]. *)
Definition pathologyName (modelId : string) : string :=
  match Regex.matchPathology modelId with
  | Some group =>
      match getProperty PATHOLOGY_INFO (Regex.toLowerCase group) with
      | Own info => JS.or_string (fullName info) "Finding"
      | _ => "Finding"
      end
  | None => "Finding"
  end.

End Demo.

(** The second copy of the demo page in the sources, without the combined
    view: it has the same [PATHOLOGY_INFO] but no region templates, and other
    constants. *)
Module Demo2.

Local Open Scope float_scope.

Definition generateRegionsFromAIResponse (aiResponse : AIResponse.t)
    : Completion (list HeatmapRegion.t) :=
  let score := Demo.scoreOf aiResponse in
  let pathologyInfo := Demo.pathologyInfoOf aiResponse in
  if score <? 0.3 then Return []
  else
    let regions :=
      [ {| HeatmapRegion.x := 0.35;
           HeatmapRegion.y := 0.4;
           HeatmapRegion.radius := 0.25;
           HeatmapRegion.intensity := score;
           HeatmapRegion.label := Demo.fullNameOf pathologyInfo;
           HeatmapRegion.explanation := Demo.descriptionOf pathologyInfo |} ] in
    match pathologyInfo with
    | Own info =>
        match Demo.secondaryFindings info with
        | Some (finding :: _) =>
            if JS.gtb score 0.7 then
              Return (regions ++
                [ {| HeatmapRegion.x := 0.6;
                     HeatmapRegion.y := 0.55;
                     HeatmapRegion.radius := 0.2;
                     HeatmapRegion.intensity := score * 0.8;
                     HeatmapRegion.label := Some "Secondary Finding"%string;
                     HeatmapRegion.explanation := Some finding |} ])
            else Return regions
        | _ => Return regions
        end
    | _ => Return regions
    end.

End Demo2.

(** * Properties *)

(** ** The order on binary64 numbers

    The comparisons of the code are the kernel's; what the proofs need of
    them comes from their specification over [spec_float]. *)

Section FloatOrder.

Local Open Scope float_scope.

Lemma SFcompare_antisym (a b : spec_float) :
  SFcompare b a = CompOpp <$> SFcompare a b.
Proof.
  destruct a as [sa|sa| |sa ma ea], b as [sb|sb| |sb mb eb]; simpl;
    try reflexivity;
    try (destruct sa; reflexivity);
    try (destruct sb; reflexivity);
    try (destruct sa, sb; reflexivity).
  destruct sa, sb; simpl; try reflexivity;
    rewrite (Z.compare_antisym ea eb);
    destruct (ea ?= eb)%Z; simpl; try reflexivity;
    f_equal; rewrite (ZC4 mb ma); try reflexivity;
    now rewrite CompOpp_involutive.
Qed.

Ltac compare_cases :=
  repeat match goal with
  | |- context [(?a ?= ?b)%Z] => destruct (Z.compare_spec a b)
  | H : context [(?a ?= ?b)%Z] |- _ => destruct (Z.compare_spec a b)
  | |- context [PosDef.Pos.compare_cont Eq ?p ?q] =>
      change (PosDef.Pos.compare_cont Eq p q) with (Pos.compare p q);
      destruct (Pos.compare_spec p q)
  | H : context [PosDef.Pos.compare_cont Eq ?p ?q] |- _ =>
      change (PosDef.Pos.compare_cont Eq p q) with (Pos.compare p q) in H;
      destruct (Pos.compare_spec p q)
  end.

Lemma SFltb_trans (a b c : spec_float) :
  SFltb a b = true -> SFltb b c = true -> SFltb a c = true.
Proof.
  unfold SFltb.
  destruct a as [sa|sa| |sa ma ea], b as [sb|sb| |sb mb eb], c as [sc|sc| |sc mc ec];
    simpl; try discriminate; try reflexivity;
    try (destruct sa; simpl; try discriminate; try reflexivity);
    try (destruct sb; simpl; try discriminate; try reflexivity);
    try (destruct sc; simpl; try discriminate; try reflexivity).
  all: compare_cases; simpl; try discriminate; try reflexivity; try lia.
Qed.

(** [<] is transitive. *)
Lemma ltb_trans (a b c : float) :
  (a <? b) = true -> (b <? c) = true -> (a <? c) = true.
Proof. rewrite !FloatAxioms.ltb_spec. apply SFltb_trans. Qed.

(** Numbers that compare equal are not in [<]. *)
Lemma eqb_not_ltb (a b : float) : (a =? b) = true -> (a <? b) = false.
Proof.
  rewrite FloatAxioms.eqb_spec, FloatAxioms.ltb_spec. unfold SFeqb, SFltb.
  destruct (SFcompare (Prim2SF a) (Prim2SF b)) as [[]|]; congruence.
Qed.

(** [a <= b] excludes [b < a]. *)
Lemma leb_not_ltb (a b : float) : (a <=? b) = true -> (b <? a) = false.
Proof.
  rewrite FloatAxioms.leb_spec, FloatAxioms.ltb_spec. unfold SFleb, SFltb.
  rewrite (SFcompare_antisym (Prim2SF a) (Prim2SF b)).
  destruct (SFcompare (Prim2SF a) (Prim2SF b)) as [[]|]; simpl; congruence.
Qed.

(** Unless one of them is [NaN], [a < b] fails only if [b <= a]. *)
Lemma not_ltb_leb (a b : float) :
  PrimFloat.is_nan a = false -> PrimFloat.is_nan b = false ->
  (a <? b) = false -> (b <=? a) = true.
Proof.
  unfold PrimFloat.is_nan. rewrite !FloatAxioms.eqb_spec, FloatAxioms.leb_spec, FloatAxioms.ltb_spec.
  unfold SFeqb, SFleb, SFltb.
  rewrite (SFcompare_antisym (Prim2SF a) (Prim2SF b)).
  destruct (Prim2SF a) as [sa|sa| |sa ma ea], (Prim2SF b) as [sb|sb| |sb mb eb];
    simpl; try discriminate; intros _ _;
    repeat match goal with |- context [if ?s then _ else _] => destruct s end;
    simpl; try discriminate; try reflexivity;
    compare_cases; simpl; try discriminate; try reflexivity.
Qed.

End FloatOrder.

(** ** Consensus detection *)

Section Consensus.

Import CombinedDicomViewer.
Local Open Scope float_scope.

Implicit Types (a annotation : Annotation.t) (r region : HeatmapRegion.t).
Implicit Types (A : list Annotation.t) (R : list HeatmapRegion.t).
Implicit Types (c : ConsensusRegion.t).

Lemma inner_loop a R (detected : list ConsensusRegion.t) :
  foldl (fun detected region =>
           if distance a region <? HeatmapRegion.radius region then
             detected ++ [ ConsensusRegion.mk (Annotation.x a) (Annotation.y a)
                             (HeatmapRegion.radius region * 0.8) a region ]
           else detected) detected R
  = detected ++ flat_map (pushed a) R.
Proof.
  revert detected.
  induction R as [|r R IH]; intros detected; simpl.
  - now rewrite app_nil_r.
  - rewrite IH. unfold pushed at 2.
    destruct (distance a r <? HeatmapRegion.radius r); simpl.
    + now rewrite <- app_assoc.
    + reflexivity.
Qed.

(** The loops compute the matching pairs, annotations outermost, each in
    array order. *)
Lemma detectConsensus_flat_map A R :
  detectConsensus A R = flat_map (fun a => flat_map (pushed a) R) A.
Proof.
  unfold detectConsensus.
  enough (forall detected,
    foldl (fun detected annotation =>
      foldl (fun detected region =>
        if distance annotation region <? HeatmapRegion.radius region then
          detected ++ [ ConsensusRegion.mk (Annotation.x annotation)
                          (Annotation.y annotation)
                          (HeatmapRegion.radius region * 0.8) annotation region ]
        else detected) detected R) detected A
    = detected ++ flat_map (fun a => flat_map (pushed a) R) A) as H
    by apply (H []).
  induction A as [|a A IH]; intros detected; simpl.
  - now rewrite app_nil_r.
  - rewrite IH, inner_loop. now rewrite <- app_assoc.
Qed.

Lemma elem_of_detectConsensus A R c :
  c ∈ detectConsensus A R <->
  exists a r, a ∈ A /\ r ∈ R /\ (distance a r <? HeatmapRegion.radius r) = true /\
    c = ConsensusRegion.mk (Annotation.x a) (Annotation.y a)
          (HeatmapRegion.radius r * 0.8) a r.
Proof.
  rewrite detectConsensus_flat_map, list_elem_of_In, in_flat_map.
  split.
  - intros (a & Ha & Hc). apply in_flat_map in Hc as (r & Hr & Hc).
    unfold pushed in Hc.
    destruct (distance a r <? HeatmapRegion.radius r) eqn:Hlt; simpl in Hc; [|tauto].
    destruct Hc as [<-|[]].
    exists a, r. rewrite !list_elem_of_In. auto.
  - intros (a & r & Ha & Hr & Hlt & ->).
    apply list_elem_of_In in Ha. apply list_elem_of_In in Hr.
    exists a. split; [assumption|].
    apply in_flat_map. exists r. split; [assumption|].
    unfold pushed. rewrite Hlt. now left.
Qed.

(** The pairs of the output, by the test of the inner loop. *)
Lemma detectConsensus_pair_distance A R a r :
  ((exists c, c ∈ detectConsensus A R /\
              ConsensusRegion.clinicianAnnotation c = a /\
              ConsensusRegion.aiRegion c = r)
   <-> a ∈ A /\ r ∈ R /\ (distance a r <? HeatmapRegion.radius r) = true)
  /\ ((distance a r =? HeatmapRegion.radius r) = true ->
      ~ exists c, c ∈ detectConsensus A R /\
                  ConsensusRegion.clinicianAnnotation c = a /\
                  ConsensusRegion.aiRegion c = r).
Proof.
  assert ((exists c, c ∈ detectConsensus A R /\
              ConsensusRegion.clinicianAnnotation c = a /\
              ConsensusRegion.aiRegion c = r)
   <-> a ∈ A /\ r ∈ R /\ (distance a r <? HeatmapRegion.radius r) = true) as Hiff.
  { split.
    - intros (c & Hc & <- & <-).
      apply elem_of_detectConsensus in Hc as (a & r & Ha & Hr & Hlt & ->).
      simpl. auto.
    - intros (Ha & Hr & Hlt).
      eexists. split; [apply elem_of_detectConsensus; eauto 10|].
      simpl. auto. }
  split; [exact Hiff|].
  intros Heq Hex. apply Hiff in Hex as (_ & _ & Hlt).
  rewrite (eqb_not_ltb _ _ Heq) in Hlt. discriminate.
Qed.

(** C1: the output of the consensus detector pairs annotation [a] with
    region [r] if and only if both are in the inputs and the Euclidean
    distance [sqrt (dx * dx + dy * dy)] between the point of [a] and the
    centre of [r] is strictly less than the radius of [r]; in particular a
    pair whose distance equals the radius is not in the output. *)
Theorem detectConsensus_pair_iff A R a r :
  let dx := Annotation.x a - HeatmapRegion.x r in
  let dy := Annotation.y a - HeatmapRegion.y r in
  ((exists c, c ∈ detectConsensus A R /\
              ConsensusRegion.clinicianAnnotation c = a /\
              ConsensusRegion.aiRegion c = r)
   <-> a ∈ A /\ r ∈ R /\
       (PrimFloat.sqrt (dx * dx + dy * dy) <? HeatmapRegion.radius r) = true)
  /\ ((PrimFloat.sqrt (dx * dx + dy * dy) =? HeatmapRegion.radius r) = true ->
      ~ exists c, c ∈ detectConsensus A R /\
                  ConsensusRegion.clinicianAnnotation c = a /\
                  ConsensusRegion.aiRegion c = r).
Proof.
  intros dx dy. exact (detectConsensus_pair_distance A R a r).
Qed.

(** C8: every consensus region the detector produces is centred on its
    clinician annotation and has 0.8 times the radius of its AI region. *)
Theorem detectConsensus_geometry A R c :
  c ∈ detectConsensus A R ->
  ConsensusRegion.x c = Annotation.x (ConsensusRegion.clinicianAnnotation c) /\
  ConsensusRegion.y c = Annotation.y (ConsensusRegion.clinicianAnnotation c) /\
  ConsensusRegion.radius c = HeatmapRegion.radius (ConsensusRegion.aiRegion c) * 0.8.
Proof.
  intros Hc. apply elem_of_detectConsensus in Hc as (a & r & _ & _ & _ & ->).
  simpl. auto.
Qed.

End Consensus.

Lemma detectConsensus_pair_iff_witness :
  let inside := Annotation.mk "1" 0.5 0.26 "" "rgba(59, 130, 246, 1)" in
  let onCircle := Annotation.mk "2" 0.5 0.5 "" "rgba(59, 130, 246, 1)" in
  let r := HeatmapRegion.mk 0.5 0.25 0.25 0.9 None None in
  (exists c, c ∈ CombinedDicomViewer.detectConsensus [inside; onCircle] [r] /\
             ConsensusRegion.clinicianAnnotation c = inside /\
             ConsensusRegion.aiRegion c = r)
  /\ ~ (exists c, c ∈ CombinedDicomViewer.detectConsensus [inside; onCircle] [r] /\
                  ConsensusRegion.clinicianAnnotation c = onCircle /\
                  ConsensusRegion.aiRegion c = r).
Proof.
  intros inside onCircle r. split.
  - pose proof (detectConsensus_pair_iff [inside; onCircle] [r] inside r) as Hpair.
    cbv zeta in Hpair. destruct Hpair as [Hiff _]. apply Hiff.
    split; [apply list_elem_of_here|].
    split; [apply list_elem_of_here|]. vm_compute. reflexivity.
  - pose proof (detectConsensus_pair_iff [inside; onCircle] [r] onCircle r) as Hpair.
    cbv zeta in Hpair. destruct Hpair as [_ Hboundary]. apply Hboundary.
    vm_compute. reflexivity.
Defined.

Lemma detectConsensus_geometry_witness :
  let a := Annotation.mk "2" 0.5 0.26 "" "rgba(59, 130, 246, 1)" in
  let r := HeatmapRegion.mk 0.5 0.25 0.25 0.9 None None in
  let c := ConsensusRegion.mk 0.5 0.26 (0.25 * 0.8) a r in
  c ∈ CombinedDicomViewer.detectConsensus [a] [r] /\
  ConsensusRegion.x c = Annotation.x (ConsensusRegion.clinicianAnnotation c) /\
  ConsensusRegion.y c = Annotation.y (ConsensusRegion.clinicianAnnotation c) /\
  ConsensusRegion.radius c
  = (HeatmapRegion.radius (ConsensusRegion.aiRegion c) * 0.8)%float.
Proof.
  intros a r c.
  assert (c ∈ CombinedDicomViewer.detectConsensus [a] [r]) as Hc
    by (vm_compute; apply list_elem_of_here).
  split; [exact Hc|].
  exact (detectConsensus_geometry [a] [r] c Hc).
Defined.

(** ** Hover picking *)

Section Hover.

Import DicomViewerWithOverlay.

Implicit Types (x y : JS.number) (regions : list HeatmapRegion.t).

(** The loop started at position [k] finds the first region that contains
    the point, and reports its position counted from [k]. *)
Lemma findRegion_from x y regions : forall k,
  match findRegion x y k regions with
  | Some (i, region) =>
      exists n, i = k + n /\ regions !! n = Some region /\
        contains x y region = true /\
        forall j other, j < n -> regions !! j = Some other -> contains x y other = false
  | None => forall other, other ∈ regions -> contains x y other = false
  end.
Proof.
  induction regions as [|region rest IH]; intros k; simpl.
  - intros other Hin. inversion Hin.
  - destruct (contains x y region) eqn:Hc.
    + exists 0. repeat split; [lia|assumption|].
      intros j other Hj. lia.
    + specialize (IH (S k)).
      destruct (findRegion x y (S k) rest) as [[i found]|].
      * destruct IH as (n & -> & Hn & Hfound & Hbefore).
        exists (S n). repeat split; [lia|assumption|assumption|].
        intros [|j] other Hj Hlookup; simpl in Hlookup.
        -- congruence.
        -- apply (Hbefore j); [lia|assumption].
      * intros other Hin. apply elem_of_cons in Hin as [->|Hin]; auto.
Qed.

(** The region the loop picks, by the test of the loop. *)
Lemma findRegion_first_contains x y regions :
  (forall i region,
     findRegion x y 0 regions = Some (i, region) <->
     regions !! i = Some region /\ contains x y region = true /\
     forall j other, j < i -> regions !! j = Some other -> contains x y other = false)
  /\ (findRegion x y 0 regions = None <->
      forall other, other ∈ regions -> contains x y other = false).
Proof.
  pose proof (findRegion_from x y regions 0) as Hspec.
  destruct (findRegion x y 0 regions) as [[i0 found]|].
  - destruct Hspec as (n & -> & Hn & Hfound & Hbefore). simpl. split.
    + intros i region. split.
      * intros Heq. injection Heq as <- <-. auto.
      * intros (Hi & Hregion & Hfirst).
        destruct (lt_eq_lt_dec i n) as [[Hlt| -> ]|Hgt].
        -- rewrite (Hbefore i region Hlt Hi) in Hregion. discriminate.
        -- congruence.
        -- rewrite (Hfirst n found Hgt Hn) in Hfound. discriminate.
    + split; [discriminate|].
      intros Hnone. apply list_elem_of_lookup_2 in Hn.
      rewrite (Hnone found Hn) in Hfound. discriminate.
  - split.
    + intros i region. split; [discriminate|].
      intros (Hi & Hregion & _). apply list_elem_of_lookup_2 in Hi.
      rewrite (Hspec region Hi) in Hregion. discriminate.
    + split; auto.
Qed.

(** The tie between two overlapping circles goes to the earlier one, though
    the later one is smaller and more intense. *)
Example findRegion_tie :
  let wide := HeatmapRegion.mk 0.5 0.5 0.3 0.4 (Some "wide") None in
  let tight := HeatmapRegion.mk 0.5 0.5 0.1 0.9 (Some "tight") None in
  contains 0.5 0.5 wide = true /\ contains 0.5 0.5 tight = true /\
  findRegion 0.5 0.5 0 [wide; tight] = Some (0, wide) /\
  findRegion 0.5 0.5 0 [tight; wide] = Some (0, tight).
Proof. repeat split. Qed.

(** C6: the hover pick resolver returns the region at position [i] exactly
    when the Euclidean distance [sqrt (dx * dx + dy * dy)] from the cursor to
    the centre of that region is strictly less than its radius and this
    holds of no region before it in the array, whatever the radii and
    intensities of the regions after it; and it returns null exactly when it
    holds of no region. *)
Theorem findRegion_first x y regions :
  (forall i region,
     findRegion x y 0 regions = Some (i, region) <->
     regions !! i = Some region /\
     (PrimFloat.sqrt ((x - HeatmapRegion.x region) * (x - HeatmapRegion.x region)
                      + (y - HeatmapRegion.y region) * (y - HeatmapRegion.y region))
      <? HeatmapRegion.radius region)%float = true /\
     forall j other, j < i -> regions !! j = Some other ->
       (PrimFloat.sqrt ((x - HeatmapRegion.x other) * (x - HeatmapRegion.x other)
                        + (y - HeatmapRegion.y other) * (y - HeatmapRegion.y other))
        <? HeatmapRegion.radius other)%float = false)
  /\ (findRegion x y 0 regions = None <->
      forall other, other ∈ regions ->
        (PrimFloat.sqrt ((x - HeatmapRegion.x other) * (x - HeatmapRegion.x other)
                         + (y - HeatmapRegion.y other) * (y - HeatmapRegion.y other))
         <? HeatmapRegion.radius other)%float = false).
Proof. exact (findRegion_first_contains x y regions). Qed.

(** The loop over references finds the first reference whose region
    contains the point. *)
Lemma findReference_first x y (references : list Reference) :
  match findReference x y references with
  | Some found =>
      exists i, references !! i = Some found /\
        contains x y (target found) = true /\
        forall j other, j < i -> references !! j = Some other ->
          contains x y (target other) = false
  | None => forall other, other ∈ references -> contains x y (target other) = false
  end.
Proof.
  induction references as [|region rest IH]; simpl.
  - intros other Hin. inversion Hin.
  - destruct (contains x y (target region)) eqn:Hc.
    + exists 0. repeat split; [assumption|]. intros j other Hj. lia.
    + destruct (findReference x y rest) as [found|].
      * destruct IH as (i & Hi & Hfound & Hbefore).
        exists (S i). repeat split; [assumption|assumption|].
        intros [|j] other Hj Hlookup; simpl in Hlookup.
        -- congruence.
        -- apply (Hbefore j); [lia|assumption].
      * intros other Hin. apply elem_of_cons in Hin as [->|Hin]; auto.
Qed.

(** The loop over references and the loop over their regions pick the same
    element. *)
Lemma findReference_findRegion x y (references : list Reference) (k : nat) :
  target <$> findReference x y references
  = snd <$> findRegion x y k (target <$> references).
Proof.
  revert k. induction references as [|region rest IH]; intros k; [reflexivity|].
  cbn [findReference findRegion fmap list_fmap].
  destruct (contains x y (target region)); [reflexivity|apply IH].
Qed.

End Hover.

Lemma findRegion_first_witness :
  let wide := HeatmapRegion.mk 0.5 0.5 0.3 0.4 (Some "wide") None in
  let tight := HeatmapRegion.mk 0.5 0.5 0.1 0.9 (Some "tight") None in
  DicomViewerWithOverlay.findRegion 0.5 0.5 0 [wide; tight] = Some (0, wide) /\
  DicomViewerWithOverlay.findRegion 0.65 0.5 0 [tight; wide] = Some (1, wide) /\
  DicomViewerWithOverlay.findRegion 0.9 0.9 0 [wide; tight] = None.
Proof.
  intros wide tight. split; [|split].
  - apply (proj1 (findRegion_first 0.5 0.5 [wide; tight]) 0 wide).
    split; [reflexivity|]. split; [vm_compute; reflexivity|].
    intros j other Hj. lia.
  - apply (proj1 (findRegion_first 0.65 0.5 [tight; wide]) 1 wide).
    split; [reflexivity|]. split; [vm_compute; reflexivity|].
    intros [|j] other Hj Hlookup; [|lia].
    injection Hlookup as <-. vm_compute. reflexivity.
  - apply (proj2 (findRegion_first 0.9 0.9 [wide; tight])).
    intros other Hin.
    apply elem_of_cons in Hin as [->|Hin]; [vm_compute; reflexivity|].
    apply list_elem_of_singleton in Hin as ->. vm_compute. reflexivity.
Defined.

(** ** Annotation markers and deletion *)

Section Annotations.

Import AnnotatableDicomViewer.
Local Open Scope float_scope.

Implicit Types (annotations kept : list Annotation.t) (id : string).

Lemma falsy_zero (n : JS.number) : (n =? 0) = true -> JS.truthy n = false.
Proof. unfold JS.truthy. now intros ->. Qed.

(** C9: an annotation whose x coordinate is 0 or whose y coordinate is 0
    gets no marker: the drawing routine issues no canvas request for it. *)
Theorem drawSingleAnnotation_zero annotation canvasWidth canvasHeight annotationNumber :
  (Annotation.x annotation =? 0) = true \/ (Annotation.y annotation =? 0) = true ->
  drawSingleAnnotation annotation canvasWidth canvasHeight annotationNumber = [].
Proof.
  unfold drawSingleAnnotation.
  intros [Hx|Hy].
  - now rewrite (falsy_zero _ Hx).
  - rewrite (falsy_zero _ Hy). now rewrite orb_true_r.
Qed.

(** Among the sublists of [annotations] without the identifier, the result
    of the deletion is the largest. *)
Lemma handleDeleteAnnotation_largest annotations id kept :
  kept `sublist_of` annotations ->
  Forall (fun a => Annotation.id a ≠ id) kept ->
  kept `sublist_of` handleDeleteAnnotation annotations id.
Proof.
  unfold handleDeleteAnnotation.
  induction 1 as [|a kept annotations Hsub IH|a kept annotations Hsub IH];
    intros Hkept.
  - constructor.
  - apply Forall_cons in Hkept as [Ha Hkept].
    rewrite filter_cons_True by assumption.
    apply sublist_skip. auto.
  - rewrite filter_cons. case_decide.
    + apply sublist_cons. auto.
    + auto.
Qed.

(** C10: deleting by identifier keeps an annotation if and only if its
    identifier differs from the given one; the result is a sublist of the
    original list (what is kept is unchanged and in its original order),
    and every sublist of the original without the identifier is a sublist
    of the result (nothing else is removed). *)
Theorem handleDeleteAnnotation_exact annotations id :
  (forall a, a ∈ handleDeleteAnnotation annotations id
             <-> a ∈ annotations /\ Annotation.id a ≠ id)
  /\ handleDeleteAnnotation annotations id `sublist_of` annotations
  /\ (forall kept, kept `sublist_of` annotations ->
                   Forall (fun a => Annotation.id a ≠ id) kept ->
                   kept `sublist_of` handleDeleteAnnotation annotations id).
Proof.
  split; [|split].
  - intros a. unfold handleDeleteAnnotation.
    rewrite list_elem_of_filter. tauto.
  - apply sublist_filter.
  - intros kept. apply handleDeleteAnnotation_largest.
Qed.

End Annotations.

Lemma drawSingleAnnotation_zero_witness :
  let atLeftEdge := Annotation.mk "1700000000000" 0 0.5 "apex" "rgba(59, 130, 246, 1)" in
  ((Annotation.x atLeftEdge =? 0)%float = true \/
   (Annotation.y atLeftEdge =? 0)%float = true) /\
  AnnotatableDicomViewer.drawSingleAnnotation atLeftEdge 800 600 1 = [].
Proof.
  intros atLeftEdge.
  assert ((Annotation.x atLeftEdge =? 0)%float = true \/
          (Annotation.y atLeftEdge =? 0)%float = true) as H by (left; reflexivity).
  split; [exact H|].
  exact (drawSingleAnnotation_zero atLeftEdge 800 600 1 H).
Defined.

(** Deleting the first of three annotations keeps the other two, in order. *)
Example handleDeleteAnnotation_first :
  let a1 := Annotation.mk "1" 0.2 0.2 "" "" in
  let a2 := Annotation.mk "2" 0.4 0.4 "" "" in
  let a3 := Annotation.mk "3" 0.6 0.6 "" "" in
  AnnotatableDicomViewer.handleDeleteAnnotation [a1; a2; a3] "1" = [a2; a3].
Proof. reflexivity. Qed.

(** ** Radius scaling of the two renderers *)

Section Scaling.

Local Open Scope float_scope.

Variables W H : JS.number.

Lemma gradientRadii_app (ops1 ops2 : list CanvasOp) :
  gradientRadii (ops1 ++ ops2) = gradientRadii ops1 ++ gradientRadii ops2.
Proof. apply omap_app. Qed.

Lemma gradientRadii_drawRegion (aiRegions : list HeatmapRegion.t) :
  gradientRadii (flat_map (CombinedDicomViewer.drawRegion W H) aiRegions)
  = map (fun region => HeatmapRegion.radius region * W) aiRegions.
Proof.
  induction aiRegions as [|region rest IH]; [reflexivity|].
  cbn [flat_map]. rewrite gradientRadii_app, IH. reflexivity.
Qed.


(** The markers paint with plain colours only. *)
Lemma gradientRadii_drawMarker (clinicianAnnotations : list Annotation.t) :
  forall first,
  gradientRadii (concat (imap (fun index =>
                   CombinedDicomViewer.drawMarker W H (first + index))
                 clinicianAnnotations)) = [].
Proof.
  induction clinicianAnnotations as [|annotation rest IH]; intros first;
    [reflexivity|].
  rewrite imap_cons, concat_cons, gradientRadii_app.
  rewrite (imap_ext _ (fun index =>
             CombinedDicomViewer.drawMarker W H (S first + index)%nat))
    by (intros; simpl; f_equal; lia).
  rewrite IH, app_nil_r.
  unfold CombinedDicomViewer.drawMarker.
  destruct (JS.truthy_string (Annotation.comment annotation)); reflexivity.
Qed.

Lemma gradientRadii_drawGradient (regions : list HeatmapRegion.t) :
  gradientRadii (flat_map (DicomViewerWithOverlay.drawGradient W H) regions)
  = map (fun region => HeatmapRegion.radius region * JS.Math_min W H) regions.
Proof.
  induction regions as [|region rest IH]; [reflexivity|].
  cbn [flat_map]. rewrite gradientRadii_app, IH. reflexivity.
Qed.

Lemma gradientRadii_drawBox hoveredRegion (regions : list HeatmapRegion.t) :
  forall first,
  gradientRadii (concat (imap (fun index =>
                   DicomViewerWithOverlay.drawBox W H hoveredRegion (first + index))
                 regions)) = [].
Proof.
  induction regions as [|region rest IH]; intros first; [reflexivity|].
  rewrite imap_cons, concat_cons, gradientRadii_app.
  rewrite (imap_ext _ (fun index =>
             DicomViewerWithOverlay.drawBox W H hoveredRegion (S first + index)%nat))
    by (intros; simpl; f_equal; lia).
  rewrite IH, app_nil_r.
  unfold DicomViewerWithOverlay.drawBox.
  destruct (HeatmapRegion.label region) as [label|]; [|reflexivity].
  destruct (JS.truthy_string label); [|reflexivity].
  destruct (DicomViewerWithOverlay.isHovered hoveredRegion (first + 0));
    reflexivity.
Qed.


End Scaling.

(** On a canvas that is not square the two renderers draw the same region
    with different radii. *)
Example scaling_differs :
  let region := HeatmapRegion.mk 0.5 0.5 0.25 0.9 (Some "Finding") None in
  gradientRadii (CombinedDicomViewer.drawOverlays 800 400 [region] [] false [])
  = [200%float] /\
  gradientRadii (DicomViewerWithOverlay.drawHeatmap 800 400 [region] None)
  = [100%float].
Proof. split; reflexivity. Qed.

(** ** The pathology region synthesizer *)

Section Synthesizer.

Import Demo.
Local Open Scope float_scope.

Implicit Types (aiResponse : AIResponse.t).

(** The extracted score is a number: [NaN || 0] is [0]. *)
Lemma scoreOf_not_nan aiResponse : PrimFloat.is_nan (scoreOf aiResponse) = false.
Proof.
  unfold scoreOf.
  destruct (responseOf aiResponse) as [response|]; [|reflexivity].
  destruct (AIResponse.score response) as [score|]; [|reflexivity].
  unfold JS.or_number, JS.truthy.
  destruct (PrimFloat.is_nan score) eqn:Hnan; [|now destruct (score =? 0)].
  now rewrite orb_true_r.
Qed.

(** A score above the high-confidence threshold is not below the minimum
    threshold. *)
Lemma high_confidence_not_low (score : JS.number) :
  (0.6 <? score) = true -> (score <? 0.3) = false.
Proof.
  intros Hhigh. destruct (score <? 0.3) eqn:Hlow; [|reflexivity].
  pose proof (ltb_trans _ _ _ Hhigh Hlow) as Habsurd.
  vm_compute in Habsurd. discriminate.
Qed.

(** The two cases of the minimum threshold cover every response. *)
Lemma score_threshold_cases aiResponse :
  (scoreOf aiResponse <? 0.3) = true \/ (0.3 <=? scoreOf aiResponse) = true.
Proof.
  destruct (scoreOf aiResponse <? 0.3) eqn:Hlow; [now left|right].
  apply not_ltb_leb; [apply scoreOf_not_nan|reflexivity|exact Hlow].
Qed.

(** Every pathology but ["normal"] has at least one region template. *)
Lemma templates_nonempty (key : string) (templates : list RegionTemplate) :
  PATHOLOGY_REGIONS !! key = Some templates -> key ≠ "normal"%string ->
  templates ≠ [].
Proof.
  intros Hlookup Hkey. unfold PATHOLOGY_REGIONS in Hlookup.
  apply elem_of_list_to_map_2 in Hlookup.
  repeat (apply elem_of_cons in Hlookup as [Hlookup|Hlookup];
          [injection Hlookup as -> ->; congruence|]).
  inversion Hlookup.
Qed.

(** The templates a response resolves to, for a key that names no
    inherited member. *)
Lemma anatomicalRegionsOf_own aiResponse :
  pathologyKeyOf aiResponse ≠ "normal"%string ->
  pathologyKeyOf aiResponse ∉ Object_prototype ->
  exists primaryRegion others,
    anatomicalRegionsOf aiResponse = Own (primaryRegion :: others).
Proof.
  intros Hnormal Hproto. unfold anatomicalRegionsOf, getProperty at 1.
  destruct (PATHOLOGY_REGIONS !! pathologyKeyOf aiResponse) as [templates|] eqn:Hlookup.
  - pose proof (templates_nonempty _ _ Hlookup Hnormal) as Hne.
    destruct templates as [|primaryRegion others]; [congruence|].
    simpl. eauto.
  - rewrite bool_decide_eq_false_2 by assumption.
    cbn [or_property]. vm_compute. eauto.
Qed.

(** With region templates: when the resolved pathology has a secondary
    template, a score strictly above 0.6 yields exactly two regions, the
    first with the score as intensity and the second with the score times
    0.85; a score of exactly 0.6 yields exactly one region. *)
Lemma secondary_with_templates aiResponse primaryRegion secondaryRegion others :
  anatomicalRegionsOf aiResponse = Own (primaryRegion :: secondaryRegion :: others) ->
  ((0.6 <? scoreOf aiResponse) = true ->
     exists primary secondary,
       generateRegionsFromAIResponse aiResponse = Return [primary; secondary] /\
       HeatmapRegion.intensity primary = scoreOf aiResponse /\
       HeatmapRegion.intensity secondary = scoreOf aiResponse * 0.85)
  /\ (scoreOf aiResponse = 0.6 ->
        exists primary,
          generateRegionsFromAIResponse aiResponse = Return [primary] /\
          HeatmapRegion.intensity primary = 0.6).
Proof.
  intros Htemplates. unfold generateRegionsFromAIResponse.
  rewrite Htemplates. generalize (pathologyInfoOf aiResponse) as pathologyInfo.
  intros pathologyInfo. cbv zeta. split.
  - intros Hhigh. rewrite (high_confidence_not_low _ Hhigh).
    unfold JS.gtb. rewrite Hhigh.
    eexists _, _. split; [reflexivity|]. split; reflexivity.
  - intros ->.
    change (0.6 <? 0.3) with false. change (JS.gtb 0.6 0.6) with false.
    eexists. split; reflexivity.
Qed.

(** With region templates: a response whose pathology key is ["normal"]
    yields no region, whatever its score. *)
Lemma normal_with_templates aiResponse :
  pathologyKeyOf aiResponse = "normal"%string ->
  generateRegionsFromAIResponse aiResponse = Return [].
Proof.
  intros Hkey. unfold generateRegionsFromAIResponse.
  assert (anatomicalRegionsOf aiResponse = Own []) as ->
    by (unfold anatomicalRegionsOf; rewrite Hkey; vm_compute; reflexivity).
  generalize (pathologyInfoOf aiResponse) as pathologyInfo.
  intros pathologyInfo. cbv zeta.
  destruct (scoreOf aiResponse <? 0.3); reflexivity.
Qed.

(** A score above the threshold of the second copy is not below the minimum
    threshold. *)
Lemma very_high_confidence_not_low (score : JS.number) :
  (0.7 <? score) = true -> (score <? 0.3) = false.
Proof.
  intros Hhigh. destruct (score <? 0.3) eqn:Hlow; [|reflexivity].
  pose proof (ltb_trans _ _ _ Hhigh Hlow) as Habsurd.
  vm_compute in Habsurd. discriminate.
Qed.

(** Without region templates (the second copy): for a pathology with
    secondary findings, a score strictly above 0.7 yields exactly two
    regions, the second with the score times 0.8; a score from 0.3 up to 0.7
    yields exactly one. *)
Lemma secondary_without_templates aiResponse info finding findings :
  pathologyInfoOf aiResponse = Own info ->
  secondaryFindings info = Some (finding :: findings) ->
  ((0.7 <? scoreOf aiResponse) = true ->
     exists primary secondary,
       Demo2.generateRegionsFromAIResponse aiResponse = Return [primary; secondary] /\
       HeatmapRegion.intensity primary = scoreOf aiResponse /\
       HeatmapRegion.intensity secondary = scoreOf aiResponse * 0.8)
  /\ ((0.3 <=? scoreOf aiResponse) = true -> (0.7 <? scoreOf aiResponse) = false ->
        exists primary,
          Demo2.generateRegionsFromAIResponse aiResponse = Return [primary] /\
          HeatmapRegion.intensity primary = scoreOf aiResponse).
Proof.
  intros Hinfo Hfindings. unfold Demo2.generateRegionsFromAIResponse.
  rewrite Hinfo. cbv zeta. rewrite Hfindings. unfold JS.gtb. split.
  - intros Hhigh. rewrite (very_high_confidence_not_low _ Hhigh), Hhigh.
    eexists _, _. split; [reflexivity|]. split; reflexivity.
  - intros Hscore Hnothigh. rewrite (leb_not_ltb _ _ Hscore), Hnothigh.
    eexists. split; reflexivity.
Qed.

(** Without region templates (the second copy): a response whose pathology
    key is ["normal"] yields no region below 0.3 and exactly one region,
    labelled "Normal", from 0.3 on. *)
Lemma normal_without_templates aiResponse :
  pathologyKeyOf aiResponse = "normal"%string ->
  ((scoreOf aiResponse <? 0.3) = true ->
     Demo2.generateRegionsFromAIResponse aiResponse = Return [])
  /\ ((0.3 <=? scoreOf aiResponse) = true ->
        exists primary,
          Demo2.generateRegionsFromAIResponse aiResponse = Return [primary] /\
          HeatmapRegion.label primary = Some "Normal"%string /\
          HeatmapRegion.intensity primary = scoreOf aiResponse).
Proof.
  intros Hkey.
  assert (exists info, pathologyInfoOf aiResponse = Own info /\
                       fullName info = "Normal"%string /\
                       secondaryFindings info = Some []) as (info & Hinfo & Hname & Hnone)
    by (unfold pathologyInfoOf; rewrite Hkey; vm_compute; eauto).
  unfold Demo2.generateRegionsFromAIResponse. rewrite Hinfo. cbv zeta. split.
  - now intros ->.
  - intros Hscore. rewrite (leb_not_ltb _ _ Hscore), Hnone.
    eexists. split; [reflexivity|]. simpl. rewrite Hname. auto.
Qed.

(** C2, amended: in the demo page with region templates, when the resolved
    pathology has a secondary template, a score strictly above 0.6 yields
    exactly two regions, the second with the score times 0.85, and a score of
    exactly 0.6 yields one; in the second copy of the page, which has no
    templates, a pathology with secondary findings gets two regions only for
    a score strictly above 0.7, the second with the score times 0.8, and one
    region for a score from 0.3 up to 0.7. *)
Theorem generateRegions_secondary aiResponse :
  (forall primaryRegion secondaryRegion others,
     anatomicalRegionsOf aiResponse
     = Own (primaryRegion :: secondaryRegion :: others) ->
     ((0.6 <? scoreOf aiResponse) = true ->
        exists primary secondary,
          generateRegionsFromAIResponse aiResponse = Return [primary; secondary] /\
          HeatmapRegion.intensity primary = scoreOf aiResponse /\
          HeatmapRegion.intensity secondary = scoreOf aiResponse * 0.85)
     /\ (scoreOf aiResponse = 0.6 ->
           exists primary,
             generateRegionsFromAIResponse aiResponse = Return [primary] /\
             HeatmapRegion.intensity primary = 0.6))
  /\ (forall info finding findings,
        pathologyInfoOf aiResponse = Own info ->
        secondaryFindings info = Some (finding :: findings) ->
        ((0.7 <? scoreOf aiResponse) = true ->
           exists primary secondary,
             Demo2.generateRegionsFromAIResponse aiResponse
             = Return [primary; secondary] /\
             HeatmapRegion.intensity primary = scoreOf aiResponse /\
             HeatmapRegion.intensity secondary = scoreOf aiResponse * 0.8)
        /\ ((0.3 <=? scoreOf aiResponse) = true ->
            (0.7 <? scoreOf aiResponse) = false ->
              exists primary,
                Demo2.generateRegionsFromAIResponse aiResponse = Return [primary] /\
                HeatmapRegion.intensity primary = scoreOf aiResponse)).
Proof.
  split.
  - intros primaryRegion secondaryRegion others.
    apply secondary_with_templates.
  - intros info finding findings. apply secondary_without_templates.
Qed.

(** C3, amended: for a response whose pathology key is ["normal"], the demo
    page with region templates yields no region, whatever the score; the
    second copy of the page, which has no templates, yields no region below
    0.3 and exactly one region, labelled "Normal", from 0.3 on. *)
Theorem generateRegions_normal aiResponse :
  pathologyKeyOf aiResponse = "normal"%string ->
  generateRegionsFromAIResponse aiResponse = Return []
  /\ ((scoreOf aiResponse <? 0.3) = true ->
      Demo2.generateRegionsFromAIResponse aiResponse = Return [])
  /\ ((0.3 <=? scoreOf aiResponse) = true ->
      exists primary,
        Demo2.generateRegionsFromAIResponse aiResponse = Return [primary] /\
        HeatmapRegion.label primary = Some "Normal"%string /\
        HeatmapRegion.intensity primary = scoreOf aiResponse).
Proof.
  intros Hkey. split; [exact (normal_with_templates aiResponse Hkey)|].
  exact (normal_without_templates aiResponse Hkey).
Qed.

(** C4, amended: a score strictly below 0.3 yields no region; a score of at
    least 0.3 yields at least one region provided the pathology key is not
    ["normal"] (and names no member inherited from [Object.prototype]). *)
Theorem generateRegions_threshold aiResponse :
  ((scoreOf aiResponse <? 0.3) = true ->
     generateRegionsFromAIResponse aiResponse = Return [])
  /\ ((0.3 <=? scoreOf aiResponse) = true ->
      pathologyKeyOf aiResponse ≠ "normal"%string ->
      pathologyKeyOf aiResponse ∉ Object_prototype ->
      exists primary rest,
        generateRegionsFromAIResponse aiResponse = Return (primary :: rest)).
Proof.
  unfold generateRegionsFromAIResponse. split.
  - now intros ->.
  - intros Hscore Hnormal Hproto.
    rewrite (leb_not_ltb _ _ Hscore).
    destruct (anatomicalRegionsOf_own aiResponse Hnormal Hproto)
      as (primaryRegion & others & ->).
    generalize (pathologyInfoOf aiResponse) as pathologyInfo.
    intros pathologyInfo. cbv zeta.
    destruct others as [|secondaryRegion others]; [eauto|].
    destruct (JS.gtb (scoreOf aiResponse) 0.6); eexists _, _; reflexivity.
Qed.

(** C5, amended: a response with score 0.85 whose pathology key is
    ["pneumothorax"] yields exactly two regions, the primary one labelled
    "Pneumothorax" and the secondary one labelled "Secondary Finding"; and
    in general the secondary region is labelled "Secondary Finding" when the
    pathology has a first secondary finding, else with the label of the
    primary region. *)
Theorem generateRegions_pneumothorax aiResponse :
  (scoreOf aiResponse = 0.85 ->
   pathologyKeyOf aiResponse = "pneumothorax"%string ->
   exists primary secondary,
     generateRegionsFromAIResponse aiResponse = Return [primary; secondary] /\
     HeatmapRegion.label primary = Some "Pneumothorax"%string /\
     HeatmapRegion.label secondary = Some "Secondary Finding"%string)
  /\ (forall primary secondary,
        generateRegionsFromAIResponse aiResponse = Return [primary; secondary] ->
        HeatmapRegion.label secondary
        = match firstSecondaryFinding (pathologyInfoOf aiResponse) with
          | Some _ => Some "Secondary Finding"%string
          | None => HeatmapRegion.label primary
          end).
Proof.
  unfold generateRegionsFromAIResponse. split.
  - intros Hscore Hkey.
    unfold anatomicalRegionsOf, pathologyInfoOf. rewrite Hscore, Hkey.
    vm_compute. eauto.
  - intros primary secondary.
    generalize (pathologyInfoOf aiResponse) as pathologyInfo.
    intros pathologyInfo.
    destruct (scoreOf aiResponse <? 0.3); [discriminate|].
    destruct (anatomicalRegionsOf aiResponse) as [[|primaryRegion others]|name|];
      try discriminate.
    cbv zeta. destruct others as [|secondaryRegion others]; [discriminate|].
    destruct (JS.gtb (scoreOf aiResponse) 0.6); [|discriminate].
    intros Heq. injection Heq as <- <-. cbn [HeatmapRegion.label].
    now destruct (firstSecondaryFinding pathologyInfo).
Qed.

End Synthesizer.

Lemma generateRegions_secondary_witness :
  let above := AIResponse.success "mc_chestradiography_atelectasis:v1.20250828" 0.61 in
  let exact := AIResponse.success "mc_chestradiography_atelectasis:v1.20250828" 0.6 in
  let high := AIResponse.success "mc_chestradiography_atelectasis:v1.20250828" 0.75 in
  (exists primary secondary,
     Demo.generateRegionsFromAIResponse above = Return [primary; secondary] /\
     HeatmapRegion.intensity primary = Demo.scoreOf above /\
     HeatmapRegion.intensity secondary = (Demo.scoreOf above * 0.85)%float)
  /\ (exists primary,
        Demo.generateRegionsFromAIResponse exact = Return [primary] /\
        HeatmapRegion.intensity primary = 0.6%float)
  /\ (exists primary secondary,
        Demo2.generateRegionsFromAIResponse high = Return [primary; secondary] /\
        HeatmapRegion.intensity primary = Demo.scoreOf high /\
        HeatmapRegion.intensity secondary = (Demo.scoreOf high * 0.8)%float)
  /\ (exists primary,
        Demo2.generateRegionsFromAIResponse above = Return [primary] /\
        HeatmapRegion.intensity primary = Demo.scoreOf above).
Proof.
  intros above exact high.
  pose (left := Demo.mkRegionTemplate 0.30 0.35 0.18 "Left upper/mid lung zone").
  pose (right := Demo.mkRegionTemplate 0.70 0.35 0.18 "Right upper/mid lung zone").
  assert (Demo.anatomicalRegionsOf above = Own [left; right]) as Habove
    by (vm_compute; reflexivity).
  assert (Demo.anatomicalRegionsOf exact = Own [left; right]) as Hexact
    by (vm_compute; reflexivity).
  assert (exists info finding findings,
            Demo.pathologyInfoOf high = Own info /\
            Demo.pathologyInfoOf above = Own info /\
            Demo.secondaryFindings info = Some (finding :: findings))
    as (info & finding & findings & Hhigh & Hinfo & Hfindings)
    by (vm_compute; eauto 10).
  split; [|split; [|split]].
  - apply (proj1 (proj1 (generateRegions_secondary above) left right [] Habove)).
    vm_compute; reflexivity.
  - apply (proj2 (proj1 (generateRegions_secondary exact) left right [] Hexact)).
    vm_compute; reflexivity.
  - apply (proj1 (proj2 (generateRegions_secondary high)
                    info finding findings Hhigh Hfindings)).
    vm_compute; reflexivity.
  - apply (proj2 (proj2 (generateRegions_secondary above)
                    info finding findings Hinfo Hfindings));
      vm_compute; reflexivity.
Defined.

Lemma generateRegions_normal_witness :
  let aiResponse := AIResponse.success "mc_chestradiography_normal:v1.20250828" 0.95 in
  Demo.pathologyKeyOf aiResponse = "normal"%string /\
  Demo.generateRegionsFromAIResponse aiResponse = Return [] /\
  exists primary,
    Demo2.generateRegionsFromAIResponse aiResponse = Return [primary] /\
    HeatmapRegion.label primary = Some "Normal"%string /\
    HeatmapRegion.intensity primary = Demo.scoreOf aiResponse.
Proof.
  intros aiResponse.
  assert (Demo.pathologyKeyOf aiResponse = "normal"%string) as Hkey
    by (vm_compute; reflexivity).
  destruct (generateRegions_normal aiResponse Hkey) as (Hnone & _ & Hone).
  split; [exact Hkey|]. split; [exact Hnone|].
  apply Hone. vm_compute; reflexivity.
Defined.

(** C2 as stated fails on the second copy of the page: at a score of 0.65,
    above 0.6, for a pathology that has a secondary template and secondary
    findings, it yields one region, not two. *)
Lemma generateRegions_secondary_counterexample :
  let aiResponse :=
    AIResponse.success "mc_chestradiography_atelectasis:v1.20250828" 0.65 in
  (0.6 <? Demo.scoreOf aiResponse)%float = true /\
  (exists primaryRegion secondaryRegion,
     Demo.anatomicalRegionsOf aiResponse = Own [primaryRegion; secondaryRegion]) /\
  (exists primary, Demo2.generateRegionsFromAIResponse aiResponse = Return [primary]) /\
  ~ exists primary secondary,
      Demo2.generateRegionsFromAIResponse aiResponse = Return [primary; secondary].
Proof.
  intros aiResponse.
  split; [vm_compute; reflexivity|]. split; [vm_compute; eauto|].
  split; [vm_compute; eauto|].
  intros (primary & secondary & Heq). vm_compute in Heq. discriminate.
Qed.

(** C3 as stated fails on the second copy of the page: a "normal" response
    with a score of 0.95 yields one region, labelled "Normal". *)
Lemma generateRegions_normal_counterexample :
  let aiResponse := AIResponse.success "mc_chestradiography_normal:v1.20250828" 0.95 in
  Demo.pathologyKeyOf aiResponse = "normal"%string /\
  (exists primary,
     Demo2.generateRegionsFromAIResponse aiResponse = Return [primary] /\
     HeatmapRegion.label primary = Some "Normal"%string) /\
  Demo2.generateRegionsFromAIResponse aiResponse <> Return [].
Proof.
  intros aiResponse.
  split; [vm_compute; reflexivity|]. split; [vm_compute; eauto|].
  intros Heq. vm_compute in Heq. discriminate.
Qed.

Lemma generateRegions_threshold_witness :
  let below := AIResponse.success "mc_chestradiography_atelectasis:v1.20250828" 0.29 in
  let at_threshold := AIResponse.success "mc_chestradiography_atelectasis:v1.20250828" 0.30 in
  Demo.generateRegionsFromAIResponse below = Return [] /\
  exists primary rest,
    Demo.generateRegionsFromAIResponse at_threshold = Return (primary :: rest).
Proof.
  intros below at_threshold. split.
  - apply (proj1 (generateRegions_threshold below)). vm_compute; reflexivity.
  - apply (proj2 (generateRegions_threshold at_threshold)).
    + vm_compute; reflexivity.
    + vm_compute. discriminate.
    + intros Hin. apply list_elem_of_In in Hin. vm_compute in Hin.
      destruct Hin as [Hin|[Hin|[]]]; discriminate.
Defined.

Lemma generateRegions_pneumothorax_witness :
  let aiResponse :=
    AIResponse.success "mc_chestradiography_pneumothorax:v1.20250828" 0.85 in
  exists primary secondary,
    Demo.generateRegionsFromAIResponse aiResponse = Return [primary; secondary] /\
    HeatmapRegion.label primary = Some "Pneumothorax"%string /\
    HeatmapRegion.label secondary = Some "Secondary Finding"%string.
Proof.
  intros aiResponse.
  apply (proj1 (generateRegions_pneumothorax aiResponse));
    vm_compute; reflexivity.
Defined.

(** C4 as stated fails: a "normal" response with a score of 0.95, above every
    threshold, yields no region. *)
Lemma generateRegions_threshold_counterexample :
  let aiResponse := AIResponse.success "mc_chestradiography_normal:v1.20250828" 0.95 in
  (0.3 <=? Demo.scoreOf aiResponse)%float = true /\
  Demo.generateRegionsFromAIResponse aiResponse = Return [] /\
  ~ exists primary rest,
      Demo.generateRegionsFromAIResponse aiResponse = Return (primary :: rest).
Proof.
  intros aiResponse.
  split; [vm_compute; reflexivity|]. split; [vm_compute; reflexivity|].
  intros (primary & rest & Heq). vm_compute in Heq. discriminate.
Qed.

(** C5 as stated fails: a model identifier that contains "pneumothorax" but
    not after "chestradiography_" resolves to the generic key, and the primary
    region is labelled "Lung Opacity". *)
Lemma generateRegions_pneumothorax_counterexample :
  let aiResponse := AIResponse.success "pneumothorax-detector:v2" 0.85 in
  Demo.scoreOf aiResponse = 0.85%float /\
  String.index 0 "pneumothorax" (Demo.modelIdOf aiResponse) = Some 0 /\
  (exists primary secondary,
     Demo.generateRegionsFromAIResponse aiResponse = Return [primary; secondary] /\
     HeatmapRegion.label primary = Some "Lung Opacity"%string) /\
  ~ exists primary secondary,
      Demo.generateRegionsFromAIResponse aiResponse = Return [primary; secondary] /\
      HeatmapRegion.label primary = Some "Pneumothorax"%string.
Proof.
  intros aiResponse.
  split; [vm_compute; reflexivity|]. split; [vm_compute; reflexivity|]. split.
  - vm_compute. eauto.
  - intros (primary & secondary & Heq & Hlabel).
    vm_compute in Heq. injection Heq as <- <-. discriminate.
Qed.

(** The pathology key is what follows the leftmost "chestradiography_",
    matched without regard to case and put in lower case. *)
Example pathologyKeyOf_examples :
  Demo.pathologyKeyOf (AIResponse.success "mc_chestradiography_atelectasis:v1.20250828" 0.5)
  = "atelectasis"%string /\
  Demo.pathologyKeyOf (AIResponse.success "MC_ChestRadiography_Pleural_Effusion:v1" 0.5)
  = "pleural_effusion"%string /\
  Demo.pathologyKeyOf (AIResponse.success "some-other-model" 0.5)
  = "lung_opacity"%string /\
  Demo.pathologyKeyOf (AIResponse.mk None None) = "lung_opacity"%string.
Proof. repeat split; vm_compute; reflexivity. Qed.

(** A key that names an inherited member of the tables makes the synthesizer
    throw once the score reaches the minimum threshold. *)
Example generateRegions_inherited_key :
  Demo.generateRegionsFromAIResponse
    (AIResponse.success "mc_chestradiography_constructor:v1" 0.85)
  = Throw "TypeError".
Proof. vm_compute. reflexivity. Qed.

(** The second copy of the demo page behaves otherwise: it draws a region for
    a "normal" response, and adds the secondary region only above 0.7, with
    0.8 times the score. *)
Example Demo2_generateRegions :
  (exists primary,
     Demo2.generateRegionsFromAIResponse
       (AIResponse.success "mc_chestradiography_normal:v1.20250828" 0.95)
     = Return [primary] /\ HeatmapRegion.label primary = Some "Normal"%string)
  /\ (exists primary,
        Demo2.generateRegionsFromAIResponse
          (AIResponse.success "mc_chestradiography_atelectasis:v1.20250828" 0.65)
        = Return [primary])
  /\ (exists primary secondary,
        Demo2.generateRegionsFromAIResponse
          (AIResponse.success "mc_chestradiography_atelectasis:v1.20250828" 0.75)
        = Return [primary; secondary] /\
        HeatmapRegion.intensity secondary = (0.75 * 0.8)%float).
Proof. repeat split; vm_compute; eauto. Qed.

(** * Further properties of the code *)

(** ** Not-a-number and the sign of square roots *)

Section FloatEdges.

Local Open Scope float_scope.

Lemma SFcompare_refl (s : spec_float) : s <> S754_nan -> SFcompare s s = Some Eq.
Proof.
  destruct s as [b|b| |b m e]; simpl; try congruence; intros _.
  - now destruct b.
  - rewrite Z.compare_refl.
    change (PosDef.Pos.compare_cont Eq m m) with (Pos.compare m m).
    rewrite Pos.compare_refl. now destruct b.
Qed.

Lemma is_nan_Prim2SF (a : float) : PrimFloat.is_nan a = true <-> Prim2SF a = S754_nan.
Proof.
  unfold PrimFloat.is_nan. rewrite FloatAxioms.eqb_spec. unfold SFeqb. split.
  - intros Hnan.
    destruct (Prim2SF a) as [b|b| |b m e] eqn:Ha; try reflexivity; exfalso;
      rewrite SFcompare_refl in Hnan by discriminate; discriminate.
  - now intros ->.
Qed.

Lemma sub_nan_l (a b : float) : PrimFloat.is_nan a = true -> PrimFloat.is_nan (a - b) = true.
Proof.
  rewrite !is_nan_Prim2SF, FloatAxioms.sub_spec. intros ->. now destruct (Prim2SF b).
Qed.

Lemma sub_nan_r (a b : float) : PrimFloat.is_nan b = true -> PrimFloat.is_nan (a - b) = true.
Proof.
  rewrite !is_nan_Prim2SF, FloatAxioms.sub_spec. intros ->. now destruct (Prim2SF a).
Qed.

Lemma square_nan (a : float) : PrimFloat.is_nan a = true -> PrimFloat.is_nan (a * a) = true.
Proof. rewrite !is_nan_Prim2SF, FloatAxioms.mul_spec. now intros ->. Qed.

Lemma add_nan_l (a b : float) : PrimFloat.is_nan a = true -> PrimFloat.is_nan (a + b) = true.
Proof.
  rewrite !is_nan_Prim2SF, FloatAxioms.add_spec. intros ->. now destruct (Prim2SF b).
Qed.

Lemma add_nan_r (a b : float) : PrimFloat.is_nan b = true -> PrimFloat.is_nan (a + b) = true.
Proof.
  rewrite !is_nan_Prim2SF, FloatAxioms.add_spec. intros ->. now destruct (Prim2SF a).
Qed.

Lemma sqrt_nan (a : float) :
  PrimFloat.is_nan a = true -> PrimFloat.is_nan (PrimFloat.sqrt a) = true.
Proof. rewrite !is_nan_Prim2SF, FloatAxioms.sqrt_spec. now intros ->. Qed.

Lemma ltb_nan_l (a b : float) : PrimFloat.is_nan a = true -> (a <? b) = false.
Proof. rewrite is_nan_Prim2SF, FloatAxioms.ltb_spec. now intros ->. Qed.

Lemma ltb_nan_r (a b : float) : PrimFloat.is_nan b = true -> (a <? b) = false.
Proof.
  rewrite is_nan_Prim2SF, FloatAxioms.ltb_spec. intros ->. unfold SFltb.
  now destruct (Prim2SF a).
Qed.

(** The operands of a true [<] are numbers. *)
Lemma ltb_not_nan (a b : float) :
  (a <? b) = true -> PrimFloat.is_nan a = false /\ PrimFloat.is_nan b = false.
Proof.
  intros Hlt. split.
  - destruct (PrimFloat.is_nan a) eqn:Hnan; [|reflexivity].
    rewrite (ltb_nan_l _ b Hnan) in Hlt. discriminate.
  - destruct (PrimFloat.is_nan b) eqn:Hnan; [|reflexivity].
    rewrite (ltb_nan_r a _ Hnan) in Hlt. discriminate.
Qed.

(** A rounded result with a positive sign is not below zero or anything
    that is at most zero. *)
Lemma binary_round_aux_sign (prec emax : Z) (m e : Z) (l : location) :
  let r := binary_round_aux prec emax false m e l in
  r = S754_nan \/ r = S754_zero false \/ r = S754_infinity false \/
  exists m' e', r = S754_finite false m' e'.
Proof.
  unfold binary_round_aux.
  destruct (shr_fexp prec emax m e l) as [mrs' e'].
  destruct (shr_fexp prec emax _ e' loc_Exact) as [mrs'' e''].
  destruct (shr_m mrs'') as [|m'|m']; simpl; auto.
  destruct (e'' <=? emax - prec)%Z; eauto 6.
Qed.

Lemma SFsqrt_sign (prec emax : Z) (s : spec_float) :
  let r := SFsqrt prec emax s in
  r = S754_nan \/ (exists b, r = S754_zero b) \/ r = S754_infinity false \/
  exists m' e', r = S754_finite false m' e'.
Proof.
  destruct s as [b|[|]| |[|] m e]; simpl; eauto 6.
  destruct (SFsqrt_core_binary prec emax (Z.pos m) e) as [[mz ez] lz].
  destruct (binary_round_aux_sign prec emax mz ez lz) as [H|[H|[H|H]]]; eauto 6.
Qed.

(** A square root is not less than a number that is at most zero. *)
Lemma sqrt_not_below_zero (a b : float) :
  (b <=? 0) = true -> (PrimFloat.sqrt a <? b) = false.
Proof.
  rewrite FloatAxioms.leb_spec, FloatAxioms.ltb_spec, FloatAxioms.sqrt_spec.
  change (Prim2SF 0) with (S754_zero false).
  unfold SF64sqrt, SFleb, SFltb.
  destruct (SFsqrt_sign prec emax (Prim2SF a)) as [->|[[z ->]|[->|(m' & e' & ->)]]];
    destruct (Prim2SF b) as [sb|[|]| |[|] mb eb]; simpl; try reflexivity;
    try discriminate.
Qed.

End FloatEdges.

(** ** More on consensus detection *)

Section ConsensusEdges.

Import CombinedDicomViewer.
Local Open Scope float_scope.

Implicit Types (a : Annotation.t) (r : HeatmapRegion.t).
Implicit Types (A : list Annotation.t) (R : list HeatmapRegion.t).

Lemma pushed_length a R : length (flat_map (pushed a) R) <= length R.
Proof.
  induction R as [|r R IH]; simpl; [lia|].
  rewrite length_app. unfold pushed at 1.
  destruct (distance a r <? HeatmapRegion.radius r); simpl; lia.
Qed.

(** X1: without annotations or without AI regions there is no consensus
    region, and there are never more consensus regions than pairs. *)
Theorem detectConsensus_bound A R :
  detectConsensus [] R = [] /\ detectConsensus A [] = [] /\
  length (detectConsensus A R) <= length A * length R.
Proof.
  rewrite !detectConsensus_flat_map. split; [reflexivity|]. split.
  - induction A as [|a A IH]; [reflexivity|exact IH].
  - induction A as [|a A IH]; simpl; [lia|].
    rewrite length_app. pose proof (pushed_length a R). lia.
Qed.

(** X2: the consensus regions of a longer annotation list extend those of a
    shorter one: annotations added at the end only add regions at the end. *)
Theorem detectConsensus_app A1 A2 R :
  detectConsensus (A1 ++ A2) R = detectConsensus A1 R ++ detectConsensus A2 R.
Proof. rewrite !detectConsensus_flat_map. apply flat_map_app. Qed.

Lemma pushed_annotation a R :
  Forall (fun c => ConsensusRegion.clinicianAnnotation c = a) (flat_map (pushed a) R).
Proof.
  induction R as [|r R IH]; simpl; [constructor|].
  apply Forall_app. split; [|exact IH].
  unfold pushed. destruct (distance a r <? HeatmapRegion.radius r); repeat constructor.
Qed.

(** X3: deleting an annotation by identifier and detecting again gives the
    former consensus regions without those of the deleted annotations, the
    others unchanged and in order. *)
Theorem detectConsensus_delete A R (id : string) :
  detectConsensus (AnnotatableDicomViewer.handleDeleteAnnotation A id) R
  = filter (fun c => Annotation.id (ConsensusRegion.clinicianAnnotation c) ≠ id)
           (detectConsensus A R).
Proof.
  rewrite !detectConsensus_flat_map.
  unfold AnnotatableDicomViewer.handleDeleteAnnotation.
  induction A as [|a A IH]; [reflexivity|].
  cbn [flat_map]. rewrite filter_app, <- IH, filter_cons.
  pose proof (pushed_annotation a R) as Hall.
  case_decide as Hid.
  - cbn [flat_map]. f_equal.
    induction Hall as [|c cs Hc _ IHcs]; [reflexivity|].
    rewrite filter_cons_True by (rewrite Hc; exact Hid). now f_equal.
  - replace (filter _ (flat_map (pushed a) R)) with (@nil ConsensusRegion.t);
      [reflexivity|].
    induction Hall as [|c cs Hc _ IHcs]; [reflexivity|].
    rewrite filter_cons_False by (rewrite Hc; intros Hne; congruence). exact IHcs.
Qed.

(** The test of the inner loop fails on not-a-number input. *)
Lemma distance_nan a r :
  PrimFloat.is_nan (Annotation.x a) = true \/ PrimFloat.is_nan (Annotation.y a) = true \/
  PrimFloat.is_nan (HeatmapRegion.x r) = true \/ PrimFloat.is_nan (HeatmapRegion.y r) = true ->
  PrimFloat.is_nan (distance a r) = true.
Proof.
  unfold distance. intros [H|[H|[H|H]]]; apply sqrt_nan.
  - apply add_nan_l, square_nan, sub_nan_l, H.
  - apply add_nan_r, square_nan, sub_nan_l, H.
  - apply add_nan_l, square_nan, sub_nan_r, H.
  - apply add_nan_r, square_nan, sub_nan_r, H.
Qed.

(** X4: a pair with a not-a-number coordinate or radius, or with a radius
    that is at most zero, is never a consensus region. *)
Theorem detectConsensus_degenerate A R a r :
  PrimFloat.is_nan (Annotation.x a) = true \/ PrimFloat.is_nan (Annotation.y a) = true \/
  PrimFloat.is_nan (HeatmapRegion.x r) = true \/ PrimFloat.is_nan (HeatmapRegion.y r) = true \/
  PrimFloat.is_nan (HeatmapRegion.radius r) = true \/
  (HeatmapRegion.radius r <=? 0) = true ->
  ~ exists c, c ∈ detectConsensus A R /\
              ConsensusRegion.clinicianAnnotation c = a /\
              ConsensusRegion.aiRegion c = r.
Proof.
  intros Hdegenerate (c & Hc & <- & <-).
  apply elem_of_detectConsensus in Hc as (a & r & _ & _ & Hlt & ->).
  simpl in Hdegenerate.
  assert ((distance a r <? HeatmapRegion.radius r) = false) as Hnot.
  { destruct Hdegenerate as [H|[H|[H|[H|[H|H]]]]].
    - apply ltb_nan_l, distance_nan. auto.
    - apply ltb_nan_l, distance_nan. auto.
    - apply ltb_nan_l, distance_nan. auto.
    - apply ltb_nan_l, distance_nan. auto.
    - apply ltb_nan_r, H.
    - apply sqrt_not_below_zero, H. }
  congruence.
Qed.

(** X5: hovering at the point of an annotation picks the AI region of the
    first consensus region of that annotation, and nothing if it has none. *)
Theorem findRegion_at_annotation a R :
  snd <$> DicomViewerWithOverlay.findRegion (Annotation.x a) (Annotation.y a) 0 R
  = ConsensusRegion.aiRegion <$> head (detectConsensus [a] R).
Proof.
  rewrite detectConsensus_flat_map. cbn [flat_map]. rewrite app_nil_r.
  generalize 0%nat.
  induction R as [|r R IH]; intros k; [reflexivity|].
  cbn [DicomViewerWithOverlay.findRegion flat_map].
  unfold pushed at 1.
  change (DicomViewerWithOverlay.contains (Annotation.x a) (Annotation.y a) r)
    with (distance a r <? HeatmapRegion.radius r).
  destruct (distance a r <? HeatmapRegion.radius r); [reflexivity|].
  apply IH.
Qed.

End ConsensusEdges.

Lemma detectConsensus_degenerate_witness :
  let a := Annotation.mk "1" 0.5 0.5 "" "rgba(59, 130, 246, 1)" in
  let r := HeatmapRegion.mk 0.5 0.5 0 0.9 None None in
  ~ exists c, c ∈ CombinedDicomViewer.detectConsensus [a] [r] /\
              ConsensusRegion.clinicianAnnotation c = a /\
              ConsensusRegion.aiRegion c = r.
Proof.
  intros a r. apply (detectConsensus_degenerate [a] [r] a r).
  do 5 right. vm_compute. reflexivity.
Defined.

(** ** More on hovering *)

Section HoverEdges.

Import DicomViewerWithOverlay.
Local Open Scope float_scope.

Implicit Types (x y : JS.number) (regions : list HeatmapRegion.t).

Lemma contains_nan x y (region : HeatmapRegion.t) :
  PrimFloat.is_nan x = true \/ PrimFloat.is_nan y = true ->
  contains x y region = false.
Proof.
  unfold contains. intros [H|H]; apply ltb_nan_l, sqrt_nan.
  - apply add_nan_l, square_nan, sub_nan_l, H.
  - apply add_nan_r, square_nan, sub_nan_l, H.
Qed.

(** X6: a cursor with a not-a-number coordinate hovers nothing, and a
    region whose radius is at most zero or not a number is never picked. *)
Theorem findRegion_degenerate x y regions :
  (PrimFloat.is_nan x = true \/ PrimFloat.is_nan y = true ->
   findRegion x y 0 regions = None)
  /\ (forall i region,
        findRegion x y 0 regions = Some (i, region) ->
        (HeatmapRegion.radius region <=? 0) = false /\
        PrimFloat.is_nan (HeatmapRegion.radius region) = false).
Proof.
  split.
  - intros Hnan. generalize 0%nat.
    induction regions as [|region rest IH]; intros k; [reflexivity|].
    cbn [findRegion]. now rewrite (contains_nan x y region Hnan).
  - intros i region Hfound.
    pose proof (findRegion_from x y regions 0) as Hspec.
    rewrite Hfound in Hspec. destruct Hspec as (n & _ & _ & Hin & _).
    unfold contains in Hin. split.
    + destruct (HeatmapRegion.radius region <=? 0) eqn:Hle; [|reflexivity].
      rewrite (sqrt_not_below_zero _ _ Hle) in Hin. discriminate.
    + apply (ltb_not_nan _ _ Hin).
Qed.

(** X7: after a pointer move over an array of regions, [onRegionHover] has
    been called exactly when the object found differs from the one held in
    [hoveredRegion] (by identity), and then with the new state; and the
    state designates the first object of the array whose region has the
    cursor strictly within its radius, or is null when there is none. *)
Theorem handleCanvasMouseMove_hovered (regions : list Reference) rect clientX clientY
    hoveredRegion :
  let x := (clientX - left rect) / width rect in
  let y := (clientY - top rect) / height rect in
  let inside (region : HeatmapRegion.t) :=
    PrimFloat.sqrt ((x - HeatmapRegion.x region) * (x - HeatmapRegion.x region)
                    + (y - HeatmapRegion.y region) * (y - HeatmapRegion.y region))
    <? HeatmapRegion.radius region in
  let result := handleCanvasMouseMove (Some regions) rect clientX clientY hoveredRegion in
  ((snd result = None /\ fst result = hoveredRegion)
   \/ (snd result = Some (fst result) /\
       address <$> fst result ≠ address <$> hoveredRegion))
  /\ match fst result with
     | Some hovered =>
         exists i found,
           regions !! i = Some found /\ address found = address hovered /\
           inside (target found) = true /\
           forall j other, j < i -> regions !! j = Some other ->
             inside (target other) = false
     | None => forall other, other ∈ regions -> inside (target other) = false
     end.
Proof.
  intros x y inside result. subst result.
  unfold handleCanvasMouseMove, sameObject. fold x y.
  pose proof (findReference_first x y regions) as Hspec.
  destruct (findReference x y regions) as [found|]; case_bool_decide as Hsame; simpl.
  - destruct hoveredRegion as [held|]; [|discriminate].
    simpl in Hsame. injection Hsame as Hsame.
    split; [left; auto|].
    destruct Hspec as (i & Hi & Hfound & Hbefore). exists i, found. auto.
  - split; [right; auto|].
    destruct Hspec as (i & Hi & Hfound & Hbefore). exists i, found. auto.
  - destruct hoveredRegion as [held|]; [discriminate|].
    split; [left; auto|exact Hspec].
  - split; [right; auto|exact Hspec].
Qed.

(** X8: a second pointer move to the same place over the same array changes
    nothing and calls nothing; but once the array is replaced by one of
    other objects, a move over one of its regions calls [onRegionHover]
    again, even if the new regions equal the old ones. *)
Theorem handleCanvasMouseMove_settles heatmapRegions rect clientX clientY hoveredRegion :
  let x := (clientX - left rect) / width rect in
  let y := (clientY - top rect) / height rect in
  let inside (region : HeatmapRegion.t) :=
    PrimFloat.sqrt ((x - HeatmapRegion.x region) * (x - HeatmapRegion.x region)
                    + (y - HeatmapRegion.y region) * (y - HeatmapRegion.y region))
    <? HeatmapRegion.radius region in
  let moved := handleCanvasMouseMove heatmapRegions rect clientX clientY hoveredRegion in
  handleCanvasMouseMove heatmapRegions rect clientX clientY (fst moved)
  = (fst moved, None)
  /\ forall replaced,
       (forall fresh, fresh ∈ replaced ->
          Some (address fresh) ≠ address <$> fst moved) ->
       (exists region, region ∈ replaced /\ inside (target region) = true) ->
       exists found,
         found ∈ replaced /\
         handleCanvasMouseMove (Some replaced) rect clientX clientY (fst moved)
         = (Some found, Some (Some found)).
Proof.
  intros x y inside moved. subst moved. split.
  - destruct heatmapRegions as [regions|]; [|reflexivity].
    unfold handleCanvasMouseMove, sameObject. fold x y.
    destruct (bool_decide (address <$> findReference x y regions
                           = address <$> hoveredRegion)) eqn:Hsame; simpl.
    + now rewrite Hsame.
    + now rewrite bool_decide_eq_true_2.
  - intros replaced Hfresh (region & Hin & Hinside).
    generalize dependent (fst (handleCanvasMouseMove heatmapRegions rect clientX
                                 clientY hoveredRegion)).
    intros held Hfresh.
    unfold handleCanvasMouseMove, sameObject. fold x y.
    pose proof (findReference_first x y replaced) as Hspec.
    destruct (findReference x y replaced) as [found|].
    + destruct Hspec as (i & Hi & _). apply list_elem_of_lookup_2 in Hi.
      exists found. split; [exact Hi|].
      now rewrite bool_decide_eq_false_2 by exact (Hfresh found Hi).
    + exfalso. specialize (Hspec region Hin).
      change (contains x y (target region)) with (inside (target region)) in Hspec.
      congruence.
Qed.

End HoverEdges.

Lemma handleCanvasMouseMove_settles_witness :
  let region := HeatmapRegion.mk 0.5 0.5 0.3 0.9 (Some "Finding") None in
  let rect := DicomViewerWithOverlay.mkDOMRect 0 0 800 600 in
  let old := DicomViewerWithOverlay.mkReference 1 region in
  let new := DicomViewerWithOverlay.mkReference 2 region in
  let moved :=
    DicomViewerWithOverlay.handleCanvasMouseMove (Some [old]) rect 400 300 None in
  fst moved = Some old /\
  DicomViewerWithOverlay.handleCanvasMouseMove (Some [old]) rect 400 300 (fst moved)
  = (fst moved, None) /\
  exists found,
    found ∈ [new] /\
    DicomViewerWithOverlay.handleCanvasMouseMove (Some [new]) rect 400 300 (fst moved)
    = (Some found, Some (Some found)).
Proof.
  intros region rect old new moved.
  pose proof (handleCanvasMouseMove_settles (Some [old]) rect 400 300 None) as Hsettles.
  cbv zeta in Hsettles. destruct Hsettles as [Hsame Hreplaced].
  split; [vm_compute; reflexivity|]. split; [exact Hsame|].
  apply Hreplaced.
  - intros fresh Hin. apply list_elem_of_singleton in Hin as ->.
    vm_compute. discriminate.
  - exists new. split; [apply list_elem_of_here|vm_compute; reflexivity].
Defined.

(** ** The simulated regions and the two renderers *)

Section Rendering.

Import DicomViewerWithOverlay.
Local Open Scope float_scope.

(** X9: the simulated regions: none below an intensity of 0.3, two strictly
    above 0.7 and one otherwise (at 0.7 itself, and for an intensity that is
    not a number); each carries the given intensity and the radius
    [0.2 + intensity * 0.1]. *)
Theorem generateHeatmapRegions_count (toFixed0 : JS.number -> string) (intensity : JS.number) :
  let regions := generateHeatmapRegions toFixed0 intensity in
  ((intensity <? 0.3) = true -> regions = [])
  /\ ((0.7 <? intensity) = true -> length regions = 2%nat)
  /\ ((intensity <? 0.3) = false -> (0.7 <? intensity) = false ->
      length regions = 1%nat)
  /\ (PrimFloat.is_nan intensity = true -> length regions = 1%nat)
  /\ Forall (fun region =>
               HeatmapRegion.intensity region = intensity /\
               HeatmapRegion.radius region = 0.2 + intensity * 0.1) regions.
Proof.
  intros regions. subst regions. unfold generateHeatmapRegions, JS.gtb.
  repeat split.
  - now intros ->.
  - intros Hhigh.
    assert ((intensity <? 0.3) = false) as ->.
    { destruct (intensity <? 0.3) eqn:Hlow; [|reflexivity].
      pose proof (ltb_trans _ _ _ Hhigh Hlow) as Habsurd.
      vm_compute in Habsurd. discriminate. }
    now rewrite Hhigh.
  - now intros -> ->.
  - intros Hnan. now rewrite (ltb_nan_l _ _ Hnan), (ltb_nan_r _ _ Hnan).
  - destruct (intensity <? 0.3); [constructor|].
    destruct (0.7 <? intensity); repeat constructor.
Qed.

Lemma Math_min_left (W H : JS.number) :
  (W <? H) = true \/ (W = H /\ PrimFloat.is_nan W = false) -> JS.Math_min W H = W.
Proof.
  unfold JS.Math_min. intros [Hlt|[<- Hnan]].
  - destruct (ltb_not_nan _ _ Hlt) as [-> ->]. now rewrite Hlt.
  - rewrite Hnan.
    assert ((W <? W) = false) as ->.
    { apply eqb_not_ltb. unfold PrimFloat.is_nan in Hnan.
      now destruct (W =? W). }
    now destruct (PrimFloat.get_sign W).
Qed.

(** X10: on a canvas that is square or higher than wide, the single-image
    overlay and the combined view paint the AI regions with the same
    gradient radii. *)
Theorem renderers_agree (W H : JS.number) regions hoveredRegion clinicianAnnotations :
  (W <? H) = true \/ (W = H /\ PrimFloat.is_nan W = false) ->
  gradientRadii (drawHeatmap W H regions hoveredRegion)
  = gradientRadii (CombinedDicomViewer.drawOverlays W H regions
                     clinicianAnnotations false []).
Proof.
  intros Hmin.
  unfold drawHeatmap, CombinedDicomViewer.drawOverlays.
  assert (gradientRadii (concat (imap (drawBox W H hoveredRegion) regions)) = [])
    as Hboxes by apply (gradientRadii_drawBox W H hoveredRegion regions 0).
  assert (gradientRadii (concat (imap (CombinedDicomViewer.drawMarker W H)
                                      clinicianAnnotations)) = []) as Hmarkers
    by apply (gradientRadii_drawMarker W H clinicianAnnotations 0).
  rewrite !gradientRadii_app, gradientRadii_drawGradient, gradientRadii_drawRegion.
  rewrite Hboxes, Hmarkers, (Math_min_left W H Hmin). reflexivity.
Qed.

End Rendering.

Lemma renderers_agree_witness :
  let region := HeatmapRegion.mk 0.5 0.5 0.25 0.9 (Some "Finding") None in
  gradientRadii (DicomViewerWithOverlay.drawHeatmap 400 800 [region] None)
  = gradientRadii (CombinedDicomViewer.drawOverlays 400 800 [region] [] false []).
Proof.
  intros region. apply (renderers_agree 400 800 [region] None []).
  left. vm_compute. reflexivity.
Defined.

(** ** Adding annotations *)

Section AnnotationFlow.

Import AnnotatableDicomViewer.
Local Open Scope float_scope.

Implicit Types (annotations : list Annotation.t) (state : State).

(** X11: saving hands [onAnnotationsChange] the former list followed by the
    pending annotation with the typed comment; deleting that annotation's
    identifier from the new list gives back the former list when no former
    annotation shares the identifier, and in any case the same as deleting
    it from the former list. *)
Theorem save_then_delete annotations state pending :
  pendingAnnotation state = Some pending ->
  exists saved,
    onAnnotationsChange (snd (handleSaveComment annotations state))
    = Some (annotations ++ [saved]) /\
    Annotation.id saved = Annotation.id pending /\
    Annotation.x saved = Annotation.x pending /\
    Annotation.y saved = Annotation.y pending /\
    Annotation.comment saved = commentText state /\
    handleDeleteAnnotation (annotations ++ [saved]) (Annotation.id pending)
    = handleDeleteAnnotation annotations (Annotation.id pending) /\
    (Forall (fun a => Annotation.id a ≠ Annotation.id pending) annotations ->
     handleDeleteAnnotation (annotations ++ [saved]) (Annotation.id pending)
     = annotations).
Proof.
  intros Hpending. unfold handleSaveComment. rewrite Hpending. simpl.
  eexists. split; [reflexivity|]. simpl. repeat split.
  - unfold handleDeleteAnnotation. rewrite filter_app, filter_cons_False, filter_nil.
    + apply app_nil_r.
    + simpl. intros Hne. now apply Hne.
  - intros Hfresh. unfold handleDeleteAnnotation.
    rewrite filter_app, filter_cons_False, filter_nil, app_nil_r.
    + induction Hfresh as [|a rest Ha _ IH]; [reflexivity|].
      rewrite filter_cons_True by exact Ha. now f_equal.
    + simpl. intros Hne. now apply Hne.
Qed.

(** X12: in drawing mode a click followed by typing a comment and saving
    adds one annotation at the clicked point in normalized coordinates, with
    the click time as identifier, and leaves the viewer idle; outside drawing
    mode a click changes nothing; and after Cancel a save adds nothing. *)
Theorem click_then_save annotations state now rect clientX clientY (text : string) :
  let clicked := handleCanvasClick now rect clientX clientY state in
  let typed := {| drawingMode := drawingMode clicked;
                  showCommentDialog := showCommentDialog clicked;
                  pendingAnnotation := pendingAnnotation clicked;
                  commentText := text |} in
  (drawingMode state = true ->
   onAnnotationsChange (snd (handleSaveComment annotations typed))
   = Some (annotations ++
           [ Annotation.mk now
               ((clientX - DicomViewerWithOverlay.left rect)
                / DicomViewerWithOverlay.width rect)
               ((clientY - DicomViewerWithOverlay.top rect)
                / DicomViewerWithOverlay.height rect)
               text "rgba(59, 130, 246, 1)" ]) /\
   fst (handleSaveComment annotations typed) = mkState false false None "")
  /\ (drawingMode state = false -> clicked = state)
  /\ snd (handleSaveComment annotations (handleCancel typed)) = mkEffects None None.
Proof.
  intros clicked typed. subst typed clicked. unfold handleCanvasClick.
  split; [|split].
  - now intros ->.
  - now intros ->.
  - reflexivity.
Qed.

(** X13: for annotations with truthy coordinates the combined view draws the
    markers the annotation view draws: without AI regions and with consensus
    off, the two traces are the same. *)
Theorem combined_markers_agree (W H : JS.number) annotations :
  Forall (fun a => JS.truthy (Annotation.x a) = true /\
                   JS.truthy (Annotation.y a) = true) annotations ->
  CombinedDicomViewer.drawOverlays W H [] annotations false []
  = drawAnnotations W H annotations.
Proof.
  intros Htruthy.
  unfold CombinedDicomViewer.drawOverlays, drawAnnotations. simpl. f_equal. f_equal.
  apply imap_ext. intros index a Hlookup.
  apply list_elem_of_lookup_2 in Hlookup.
  rewrite Forall_forall in Htruthy. destruct (Htruthy a Hlookup) as [Hx Hy].
  unfold CombinedDicomViewer.drawMarker, drawSingleAnnotation.
  now rewrite Hx, Hy.
Qed.

End AnnotationFlow.

Lemma save_then_delete_witness :
  let first := Annotation.mk "1700000000000" 0.2 0.3 "apex" "rgba(59, 130, 246, 1)" in
  let pending := Annotation.mk "1700000000500" 0.6 0.4 "" "rgba(59, 130, 246, 1)" in
  let state := AnnotatableDicomViewer.mkState true true (Some pending) "nodule" in
  exists saved,
    AnnotatableDicomViewer.onAnnotationsChange
      (snd (AnnotatableDicomViewer.handleSaveComment [first] state))
    = Some ([first] ++ [saved]) /\
    Annotation.comment saved = "nodule"%string /\
    AnnotatableDicomViewer.handleDeleteAnnotation ([first] ++ [saved]) "1700000000500"
    = [first].
Proof.
  intros first pending state.
  destruct (save_then_delete [first] state pending eq_refl)
    as (saved & Hsaved & _ & _ & _ & Hcomment & _ & Hroundtrip).
  exists saved. split; [exact Hsaved|]. split; [exact Hcomment|].
  apply Hroundtrip. repeat constructor. simpl. discriminate.
Defined.

Lemma combined_markers_agree_witness :
  let a := Annotation.mk "1700000000000" 0.2 0.3 "apex" "rgba(59, 130, 246, 1)" in
  CombinedDicomViewer.drawOverlays 800 600 [] [a] false []
  = AnnotatableDicomViewer.drawAnnotations 800 600 [a].
Proof.
  intros a. apply (combined_markers_agree 800 600 [a]).
  repeat constructor.
Defined.

(** On the left edge the two views differ: only the combined view draws the
    marker. *)
Example combined_markers_differ_on_edge :
  let a := Annotation.mk "1700000000000" 0 0.3 "" "rgba(59, 130, 246, 1)" in
  AnnotatableDicomViewer.drawAnnotations 800 600 [a] = [ClearRect 0 0 800 600] /\
  length (CombinedDicomViewer.drawOverlays 800 600 [] [a] false []) = 13.
Proof. split; reflexivity. Qed.

(** ** More on the pathology region synthesizer *)

Section SynthesizerEdges.

Import Demo.
Local Open Scope float_scope.

Implicit Types (aiResponse : AIResponse.t).

Lemma greedy_run (run rest : string) :
  Forall (fun c => Regex.wordChar c = true) (list_ascii_of_string run) ->
  Regex.greedy (run +:+ ":" +:+ rest) = run.
Proof.
  induction run as [|c run IH]; intros Hrun; [reflexivity|].
  simpl in Hrun. apply Forall_cons in Hrun as [Hc Hrun].
  change (Regex.greedy (String c (run +:+ ":" +:+ rest)) = String c run).
  cbn [Regex.greedy]. rewrite Hc. f_equal. now apply IH.
Qed.

(** X14: the model identifier built for a selected model, echoed back by the
    service, resolves to that model's key in lower case, for every non-empty
    key made of letters and underscores. *)
Theorem modelIdFor_roundtrip (selectedModel : string) (score : JS.number) :
  selectedModel ≠ ""%string ->
  Forall (fun c => Regex.wordChar c = true) (list_ascii_of_string selectedModel) ->
  pathologyKeyOf (AIResponse.success (modelIdFor selectedModel) score)
  = Regex.toLowerCase selectedModel.
Proof.
  intros Hnonempty Hword. unfold pathologyKeyOf.
  change (modelIdOf (AIResponse.success (modelIdFor selectedModel) score))
    with (modelIdFor selectedModel).
  unfold modelIdFor.
  change (Regex.matchPathology ("mc_chestradiography_" +:+ selectedModel +:+ ":v1.20250828"))
    with (match Regex.greedy (selectedModel +:+ ":" +:+ "v1.20250828") with
          | EmptyString =>
              Regex.matchPathology
                ("hestradiography_" +:+ selectedModel +:+ ":v1.20250828")
          | group => Some group
          end).
  rewrite (greedy_run selectedModel "v1.20250828" Hword).
  destruct selectedModel; [congruence|reflexivity].
Qed.

Lemma greedy_wordChars (s : string) :
  Forall (fun c => Regex.wordChar c = true) (list_ascii_of_string (Regex.greedy s)).
Proof.
  induction s as [|c s IH]; simpl; [constructor|].
  destruct (Regex.wordChar c) eqn:Hc; simpl; [|constructor].
  now constructor.
Qed.

Lemma matchPathology_group (s group : string) :
  Regex.matchPathology s = Some group ->
  group ≠ ""%string /\
  Forall (fun c => Regex.wordChar c = true) (list_ascii_of_string group).
Proof.
  induction s as [|c s IH]; [discriminate|].
  cbn [Regex.matchPathology].
  destruct (Regex.literal "chestradiography_" (String c s)) as [after|]; [|exact IH].
  pose proof (greedy_wordChars after) as Hword.
  destruct (Regex.greedy after) as [|c' run]; [exact IH|].
  intros Heq. injection Heq as <-. split; [discriminate|exact Hword].
Qed.

Lemma toLower_wordChar (c : ascii) :
  Regex.wordChar c = true ->
  Regex.isLower (Regex.toLower c) || Ascii.eqb (Regex.toLower c) "_" = true.
Proof.
  destruct c as [[] [] [] [] [] [] [] []]; vm_compute; congruence.
Qed.

(** X15: the pathology key of any response is a non-empty run of lower-case
    letters and underscores. *)
Theorem pathologyKeyOf_shape aiResponse :
  pathologyKeyOf aiResponse ≠ ""%string /\
  Forall (fun c => Regex.isLower c || Ascii.eqb c "_" = true)
         (list_ascii_of_string (pathologyKeyOf aiResponse)).
Proof.
  unfold pathologyKeyOf.
  destruct (Regex.matchPathology (modelIdOf aiResponse)) as [group|] eqn:Hmatch.
  - apply matchPathology_group in Hmatch as [Hnonempty Hword]. split.
    + destruct group; [congruence|discriminate].
    + clear Hnonempty. induction group as [|c group IH]; [constructor|].
      simpl in Hword. apply Forall_cons in Hword as [Hc Hword].
      simpl. constructor; [now apply toLower_wordChar|now apply IH].
  - split; [discriminate|]. vm_compute. repeat constructor.
Qed.

End SynthesizerEdges.

Section SynthesizerTotal.

Import Demo.
Local Open Scope float_scope.

Implicit Types (aiResponse : AIResponse.t).

Lemma lung_opacity_templates :
  getProperty PATHOLOGY_REGIONS "lung_opacity"
  = Own [ mkRegionTemplate 0.35 0.45 0.20 "Left lung field";
          mkRegionTemplate 0.65 0.45 0.20 "Right lung field" ].
Proof. vm_compute. reflexivity. Qed.

Lemma inherited_not_own (name : string) :
  name ∈ Object_prototype -> PATHOLOGY_REGIONS !! name = None.
Proof.
  intros Hin. unfold Object_prototype in Hin.
  repeat (apply elem_of_cons in Hin as [->|Hin]; [vm_compute; reflexivity|]).
  inversion Hin.
Qed.

(** How the templates of a response are resolved. *)
Lemma anatomicalRegionsOf_cases aiResponse :
  (exists templates,
     PATHOLOGY_REGIONS !! pathologyKeyOf aiResponse = Some templates /\
     anatomicalRegionsOf aiResponse = Own templates)
  \/ (pathologyKeyOf aiResponse ∈ Object_prototype /\
      anatomicalRegionsOf aiResponse = Inherited (pathologyKeyOf aiResponse))
  \/ ((PATHOLOGY_REGIONS !! pathologyKeyOf aiResponse) = None /\
      (pathologyKeyOf aiResponse ∉ Object_prototype) /\
      anatomicalRegionsOf aiResponse = getProperty PATHOLOGY_REGIONS "lung_opacity").
Proof.
  unfold anatomicalRegionsOf.
  destruct (PATHOLOGY_REGIONS !! pathologyKeyOf aiResponse) as [templates|] eqn:Hlookup.
  - left. exists templates. split; [reflexivity|].
    unfold getProperty at 1. now rewrite Hlookup.
  - right.
    destruct (decide (pathologyKeyOf aiResponse ∈ Object_prototype)) as [Hproto|Hproto].
    + left. split; [exact Hproto|]. unfold getProperty at 1.
      now rewrite Hlookup, bool_decide_eq_true_2 by exact Hproto.
    + right. split; [reflexivity|]. split; [exact Hproto|]. unfold getProperty at 1.
      now rewrite Hlookup, bool_decide_eq_false_2 by exact Hproto.
Qed.

(** X16: the synthesizer throws exactly when the score is not below 0.3 and
    the pathology key names a member the tables inherit from
    [Object.prototype]; for every other response it returns. *)
Theorem generateRegions_throws_iff aiResponse :
  (exists error, generateRegionsFromAIResponse aiResponse = Throw error)
  <-> (scoreOf aiResponse <? 0.3) = false /\
      pathologyKeyOf aiResponse ∈ Object_prototype.
Proof.
  unfold generateRegionsFromAIResponse.
  generalize (pathologyInfoOf aiResponse) as pathologyInfo. intros pathologyInfo.
  cbv zeta.
  destruct (scoreOf aiResponse <? 0.3).
  { split; [intros [error Heq]; discriminate|intros [Hlow _]; discriminate]. }
  destruct (anatomicalRegionsOf_cases aiResponse)
    as [(templates & Hlookup & ->)|[[Hproto ->]|(Hlookup & Hproto & ->)]].
  - split.
    + intros [error Heq]. destruct templates as [|primaryRegion [|secondaryRegion others]];
        try discriminate.
      destruct (JS.gtb (scoreOf aiResponse) 0.6); discriminate.
    + intros [_ Hproto]. rewrite (inherited_not_own _ Hproto) in Hlookup. discriminate.
  - split; eauto.
  - rewrite lung_opacity_templates. split.
    + intros [error Heq]. destruct (JS.gtb (scoreOf aiResponse) 0.6); discriminate.
    + tauto.
Qed.

Lemma templates_withinImage (name : string) (templates : list RegionTemplate) :
  PATHOLOGY_REGIONS !! name = Some templates ->
  Forall (fun t => withinImage (tx t) (ty t) (tradius t) = true) templates.
Proof.
  intros Hlookup. unfold PATHOLOGY_REGIONS in Hlookup.
  apply elem_of_list_to_map_2 in Hlookup.
  repeat (apply elem_of_cons in Hlookup as [Hlookup|Hlookup];
          [injection Hlookup as -> ->; repeat constructor|]).
  inversion Hlookup.
Qed.

(** X17: the synthesizer returns at most two regions, and the circle of each
    lies within the image: in normalized coordinates the centre is at least
    one radius away from every border. *)
Theorem generateRegions_withinImage aiResponse regions :
  generateRegionsFromAIResponse aiResponse = Return regions ->
  length regions <= 2 /\
  Forall (fun region =>
            withinImage (HeatmapRegion.x region) (HeatmapRegion.y region)
                        (HeatmapRegion.radius region) = true) regions.
Proof.
  unfold generateRegionsFromAIResponse.
  generalize (pathologyInfoOf aiResponse) as pathologyInfo. intros pathologyInfo.
  cbv zeta.
  destruct (scoreOf aiResponse <? 0.3).
  { intros Heq. injection Heq as <-. split; [simpl; lia|constructor]. }
  assert (forall templates, anatomicalRegionsOf aiResponse = Own templates ->
            Forall (fun t => withinImage (tx t) (ty t) (tradius t) = true) templates)
    as Hwithin.
  { intros templates Hown.
    destruct (anatomicalRegionsOf_cases aiResponse)
      as [(templates' & Hlookup & Heq)|[[_ Heq]|(_ & _ & Heq)]];
      rewrite Heq in Hown.
    - injection Hown as ->. exact (templates_withinImage _ _ Hlookup).
    - discriminate.
    - rewrite lung_opacity_templates in Hown. injection Hown as <-.
      repeat constructor. }
  destruct (anatomicalRegionsOf aiResponse) as [templates|name|]; try discriminate.
  specialize (Hwithin templates eq_refl).
  destruct templates as [|primaryRegion others].
  { intros Heq. injection Heq as <-. split; [simpl; lia|constructor]. }
  apply Forall_cons in Hwithin as [Hprimary Hothers].
  destruct others as [|secondaryRegion others].
  { intros Heq. injection Heq as <-. split; [simpl; lia|].
    repeat constructor. exact Hprimary. }
  apply Forall_cons in Hothers as [Hsecondary _].
  destruct (JS.gtb (scoreOf aiResponse) 0.6);
    intros Heq; injection Heq as <-; (split; [simpl; lia|]);
    repeat constructor; assumption.
Qed.

End SynthesizerTotal.

Section SynthesizerFallbacks.

Import Demo.
Local Open Scope float_scope.

Implicit Types (aiResponse : AIResponse.t).

(** Every pathology with a description has region templates. *)
Lemma described_has_templates (name : string) (info : PathologyInfo) :
  PATHOLOGY_INFO !! name = Some info -> PATHOLOGY_REGIONS !! name ≠ None.
Proof.
  intros Hlookup. unfold PATHOLOGY_INFO in Hlookup.
  apply elem_of_list_to_map_2 in Hlookup.
  repeat (apply elem_of_cons in Hlookup as [Hlookup|Hlookup];
          [injection Hlookup as -> _; vm_compute; discriminate|]).
  inversion Hlookup.
Qed.

(** X18: a response whose pathology key is in neither table (and names no
    inherited member) is treated exactly as a lung-opacity response with the
    same score. *)
Theorem generateRegions_unknown_key aiResponse fallback :
  PATHOLOGY_REGIONS !! pathologyKeyOf aiResponse = None ->
  pathologyKeyOf aiResponse ∉ Object_prototype ->
  pathologyKeyOf fallback = "lung_opacity"%string ->
  scoreOf fallback = scoreOf aiResponse ->
  generateRegionsFromAIResponse aiResponse = generateRegionsFromAIResponse fallback.
Proof.
  intros Hregions Hproto Hfallback Hscore.
  assert (anatomicalRegionsOf aiResponse = anatomicalRegionsOf fallback) as Htemplates.
  { unfold anatomicalRegionsOf, getProperty at 1. rewrite Hregions, Hfallback.
    now rewrite bool_decide_eq_false_2 by exact Hproto. }
  assert (pathologyInfoOf aiResponse = pathologyInfoOf fallback) as Hinfo.
  { unfold pathologyInfoOf, getProperty at 1. rewrite Hfallback.
    destruct (PATHOLOGY_INFO !! pathologyKeyOf aiResponse) as [info|] eqn:Hlookup.
    - now apply described_has_templates in Hlookup.
    - now rewrite bool_decide_eq_false_2 by exact Hproto. }
  unfold generateRegionsFromAIResponse. now rewrite Htemplates, Hinfo, Hscore.
Qed.

(** The score read from a response without one, or with one that is zero or
    not a number, is [0]. *)
Lemma scoreOf_missing aiResponse :
  match responseOf aiResponse with
  | Some response =>
      match AIResponse.score response with
      | Some score => PrimFloat.is_nan score = true \/ (score =? 0) = true
      | None => True
      end
  | None => True
  end ->
  scoreOf aiResponse = 0.
Proof.
  unfold scoreOf.
  destruct (responseOf aiResponse) as [response|]; [|reflexivity].
  destruct (AIResponse.score response) as [score|]; [|reflexivity].
  unfold JS.or_number, JS.truthy.
  intros [-> | ->]; [now rewrite orb_true_r|reflexivity].
Qed.

(** X19: a response without [results], without a [response], without a
    score, or with a score that is zero or not a number yields no region, in
    either copy of the demo page. *)
Theorem generateRegions_missing_score aiResponse :
  match responseOf aiResponse with
  | Some response =>
      match AIResponse.score response with
      | Some score => PrimFloat.is_nan score = true \/ (score =? 0) = true
      | None => True
      end
  | None => True
  end ->
  generateRegionsFromAIResponse aiResponse = Return [] /\
  Demo2.generateRegionsFromAIResponse aiResponse = Return [].
Proof.
  intros Hmissing. apply scoreOf_missing in Hmissing.
  unfold generateRegionsFromAIResponse, Demo2.generateRegionsFromAIResponse.
  rewrite Hmissing. split; reflexivity.
Qed.

(** X20: the second copy of the demo page never throws: below 0.3 it yields
    no region, and from 0.3 on it yields the primary region at the fixed place
    with the score as intensity, followed by at most one secondary region,
    which appears only for a score strictly above 0.7 and carries 0.8 times
    the score. *)
Theorem Demo2_generateRegions_total aiResponse :
  ((scoreOf aiResponse <? 0.3) = true ->
   Demo2.generateRegionsFromAIResponse aiResponse = Return [])
  /\ ((0.3 <=? scoreOf aiResponse) = true ->
      exists primary rest,
        Demo2.generateRegionsFromAIResponse aiResponse = Return (primary :: rest) /\
        HeatmapRegion.x primary = 0.35 /\ HeatmapRegion.y primary = 0.4 /\
        HeatmapRegion.radius primary = 0.25 /\
        HeatmapRegion.intensity primary = scoreOf aiResponse /\
        length rest <= 1 /\
        Forall (fun secondary =>
                  (0.7 <? scoreOf aiResponse) = true /\
                  HeatmapRegion.intensity secondary = scoreOf aiResponse * 0.8 /\
                  HeatmapRegion.label secondary = Some "Secondary Finding"%string)
               rest).
Proof.
  unfold Demo2.generateRegionsFromAIResponse.
  generalize (pathologyInfoOf aiResponse) as pathologyInfo. intros pathologyInfo.
  cbv zeta. split.
  - now intros ->.
  - intros Hscore. rewrite (leb_not_ltb _ _ Hscore).
    destruct pathologyInfo as [info|name|];
      try (eexists _, []; repeat split; simpl; auto; lia).
    destruct (secondaryFindings info) as [[|finding findings]|];
      try (eexists _, []; repeat split; simpl; auto; lia).
    unfold JS.gtb. destruct (0.7 <? scoreOf aiResponse) eqn:Hhigh.
    + eexists _, [_]. repeat split; simpl; auto.
    + eexists _, []. repeat split; simpl; auto; lia.
Qed.

End SynthesizerFallbacks.

Lemma generateRegions_unknown_key_witness :
  let unknown := AIResponse.success "mc_chestradiography_tuberculosis:v1.20250828" 0.8 in
  let fallback := AIResponse.success "mc_chestradiography_lung_opacity:v1.20250828" 0.8 in
  Demo.generateRegionsFromAIResponse unknown
  = Demo.generateRegionsFromAIResponse fallback.
Proof.
  intros unknown fallback.
  apply (generateRegions_unknown_key unknown fallback).
  - vm_compute. reflexivity.
  - intros Hin. apply list_elem_of_In in Hin. vm_compute in Hin.
    destruct Hin as [Hin|[Hin|[]]]; discriminate.
  - vm_compute. reflexivity.
  - vm_compute. reflexivity.
Defined.

Lemma generateRegions_missing_score_witness :
  let aiResponse :=
    AIResponse.mk (Some "mc_chestradiography_atelectasis:v1.20250828"%string) None in
  Demo.generateRegionsFromAIResponse aiResponse = Return [] /\
  Demo2.generateRegionsFromAIResponse aiResponse = Return [].
Proof.
  intros aiResponse. apply (generateRegions_missing_score aiResponse). exact I.
Defined.

Section SelectableModels.

Import Demo.
Local Open Scope float_scope.

Implicit Types (aiResponse : AIResponse.t).

(** X21: for every entry of the model selector but "auto", a response that
    echoes the identifier built for it resolves to the entry's key; and
    unless the key is "normal", a score of at least 0.3 yields a primary
    region labelled with the entry's label, except for "ild", which has no
    description of its own and is labelled "Lung Opacity". *)
Theorem selectable_model_regions (model : Model) aiResponse :
  model ∈ AVAILABLE_MODELS ->
  key model ≠ "auto"%string ->
  modelIdOf aiResponse = modelIdFor (key model) ->
  pathologyKeyOf aiResponse = key model /\
  (key model ≠ "normal"%string ->
   (0.3 <=? scoreOf aiResponse) = true ->
   exists primary rest,
     generateRegionsFromAIResponse aiResponse = Return (primary :: rest) /\
     HeatmapRegion.label primary
     = Some (if String.eqb (key model) "ild" then "Lung Opacity"%string
             else mlabel model)).
Proof.
  intros Hmodel Hauto Hid.
  assert (pathologyKeyOf aiResponse = key model) as Hkey.
  { unfold pathologyKeyOf. rewrite Hid. unfold AVAILABLE_MODELS in Hmodel.
    repeat (apply elem_of_cons in Hmodel as [->|Hmodel]; [vm_compute; reflexivity|]).
    inversion Hmodel. }
  split; [exact Hkey|].
  intros Hnormal Hscore.
  unfold generateRegionsFromAIResponse, anatomicalRegionsOf, pathologyInfoOf.
  rewrite Hkey, (leb_not_ltb _ _ Hscore).
  generalize (scoreOf aiResponse) as score. intros score.
  clear Hkey Hid Hscore aiResponse.
  unfold AVAILABLE_MODELS in Hmodel.
  repeat (apply elem_of_cons in Hmodel as [->|Hmodel];
          [first [ exfalso; apply Hauto; reflexivity
                 | exfalso; apply Hnormal; reflexivity
                 | vm_compute;
                   try match goal with
                       | |- context [if ?b then _ else _] => destruct b
                       end;
                   eexists _, _; split; reflexivity ]|]).
  inversion Hmodel.
Qed.

End SelectableModels.

Lemma selectable_model_regions_witness :
  let model := Demo.mkModel "ild" "ILD" "Interstitial lung disease" in
  let aiResponse := AIResponse.success "mc_chestradiography_ild:v1.20250828" 0.5 in
  Demo.pathologyKeyOf aiResponse = "ild"%string /\
  exists primary rest,
    Demo.generateRegionsFromAIResponse aiResponse = Return (primary :: rest) /\
    HeatmapRegion.label primary = Some "Lung Opacity"%string.
Proof.
  intros model aiResponse.
  assert (model ∈ Demo.AVAILABLE_MODELS) as Hmodel
    by (apply list_elem_of_In; vm_compute; tauto).
  assert (Demo.key model ≠ "auto"%string) as Hauto by (vm_compute; discriminate).
  assert (Demo.modelIdOf aiResponse = Demo.modelIdFor (Demo.key model)) as Hid
    by (vm_compute; reflexivity).
  destruct (selectable_model_regions model aiResponse Hmodel Hauto Hid)
    as [Hkey Hregions].
  split; [exact Hkey|].
  apply Hregions; [vm_compute; discriminate|vm_compute; reflexivity].
Defined.

Lemma modelIdFor_roundtrip_witness :
  Demo.pathologyKeyOf
    (AIResponse.success (Demo.modelIdFor "Pleural_Effusion") 0.5)
  = "pleural_effusion"%string.
Proof.
  apply (modelIdFor_roundtrip "Pleural_Effusion" 0.5).
  - discriminate.
  - vm_compute. repeat constructor.
Defined.

Section ToastName.

Import Demo.
Local Open Scope float_scope.

Implicit Types (aiResponse : AIResponse.t).

Lemma fullName_truthy (name : string) (info : PathologyInfo) :
  PATHOLOGY_INFO !! name = Some info -> JS.or_string (fullName info) "Finding" = fullName info.
Proof.
  intros Hlookup. unfold PATHOLOGY_INFO in Hlookup.
  apply elem_of_list_to_map_2 in Hlookup.
  repeat (apply elem_of_cons in Hlookup as [Hlookup|Hlookup];
          [injection Hlookup as -> ->; reflexivity|]).
  inversion Hlookup.
Qed.

Lemma lung_opacity_label :
  fullNameOf (getProperty PATHOLOGY_INFO "lung_opacity") = Some "Lung Opacity"%string.
Proof. vm_compute. reflexivity. Qed.

Lemma getProperty_own {V : Type} (obj : gmap string V) (name : string) (value : V) :
  obj !! name = Some value -> getProperty obj name = Own value.
Proof. unfold getProperty. now intros ->. Qed.

Lemma getProperty_undefined {V : Type} (obj : gmap string V) (name : string) :
  obj !! name = None -> name ∉ Object_prototype -> getProperty obj name = Undefined.
Proof.
  unfold getProperty. intros -> Hproto. now rewrite bool_decide_eq_false_2.
Qed.

(** The label of the primary region is the full name of the resolved
    description, and the templates were found in the table. *)
Lemma primary_label aiResponse primary rest :
  generateRegionsFromAIResponse aiResponse = Return (primary :: rest) ->
  HeatmapRegion.label primary = fullNameOf (pathologyInfoOf aiResponse) /\
  exists templates, anatomicalRegionsOf aiResponse = Own templates.
Proof.
  unfold generateRegionsFromAIResponse.
  generalize (pathologyInfoOf aiResponse) as pathologyInfo. intros pathologyInfo.
  cbv zeta.
  destruct (scoreOf aiResponse <? 0.3); [discriminate|].
  destruct (anatomicalRegionsOf aiResponse)
    as [[|primaryRegion [|secondaryRegion others]]|name|]; try discriminate.
  - intros Hregions. injection Hregions as <- _. eauto.
  - destruct (JS.gtb (scoreOf aiResponse) 0.6);
      intros Hregions; injection Hregions as <- _; eauto.
Qed.

(** X22: when the synthesizer returns regions, the pathology name in the
    toast of the analysis is the label of the primary region, unless the
    identifier matched no described pathology: then the toast says "Finding"
    while the region is labelled "Lung Opacity". *)
Theorem pathologyName_label aiResponse primary rest :
  generateRegionsFromAIResponse aiResponse = Return (primary :: rest) ->
  HeatmapRegion.label primary = Some (pathologyName (modelIdOf aiResponse))
  \/ (pathologyName (modelIdOf aiResponse) = "Finding"%string /\
      HeatmapRegion.label primary = Some "Lung Opacity"%string).
Proof.
  intros Hregions.
  destruct (primary_label _ _ _ Hregions) as [-> [templates Hown]].
  clear Hregions.
  assert (PATHOLOGY_INFO !! pathologyKeyOf aiResponse = None ->
          pathologyKeyOf aiResponse ∉ Object_prototype) as Hnot.
  { intros _ Hproto.
    destruct (anatomicalRegionsOf_cases aiResponse)
      as [(templates' & Hlookup & _)|[[_ Heq]|(_ & Hproto' & _)]].
    - rewrite (inherited_not_own _ Hproto) in Hlookup. discriminate.
    - rewrite Heq in Hown. discriminate.
    - contradiction. }
  clear Hown. unfold pathologyInfoOf, pathologyName.
  destruct (Regex.matchPathology (modelIdOf aiResponse)) as [group|] eqn:Hmatch.
  - assert (pathologyKeyOf aiResponse = Regex.toLowerCase group) as Hkey
      by (unfold pathologyKeyOf; now rewrite Hmatch).
    rewrite Hkey in *.
    destruct (PATHOLOGY_INFO !! Regex.toLowerCase group) as [info|] eqn:Hinfo.
    + left. rewrite (getProperty_own _ _ _ Hinfo).
      cbn [or_property fullNameOf]. now rewrite (fullName_truthy _ _ Hinfo).
    + right. rewrite (getProperty_undefined _ _ Hinfo (Hnot eq_refl)).
      cbn [or_property]. split; [reflexivity|apply lung_opacity_label].
  - assert (pathologyKeyOf aiResponse = "lung_opacity"%string) as ->
      by (unfold pathologyKeyOf; now rewrite Hmatch).
    right. split; [reflexivity|]. vm_compute. reflexivity.
Qed.

End ToastName.

Lemma generateRegions_withinImage_witness :
  let aiResponse :=
    AIResponse.success "mc_chestradiography_cardiomegaly:v1.20250828" 0.9 in
  exists regions,
    Demo.generateRegionsFromAIResponse aiResponse = Return regions /\
    length regions <= 2 /\
    Forall (fun region =>
              withinImage (HeatmapRegion.x region) (HeatmapRegion.y region)
                          (HeatmapRegion.radius region) = true) regions.
Proof.
  intros aiResponse.
  assert (exists regions, Demo.generateRegionsFromAIResponse aiResponse = Return regions)
    as [regions Hregions] by (vm_compute; eauto).
  exists regions. split; [exact Hregions|].
  exact (generateRegions_withinImage aiResponse regions Hregions).
Defined.

Lemma pathologyName_label_witness :
  let aiResponse := AIResponse.success "mc_chestradiography_ild:v1.20250828" 0.5 in
  exists primary rest,
    Demo.generateRegionsFromAIResponse aiResponse = Return (primary :: rest) /\
    (HeatmapRegion.label primary
     = Some (Demo.pathologyName (Demo.modelIdOf aiResponse))
     \/ (Demo.pathologyName (Demo.modelIdOf aiResponse) = "Finding"%string /\
         HeatmapRegion.label primary = Some "Lung Opacity"%string)).
Proof.
  intros aiResponse.
  assert (exists primary rest,
            Demo.generateRegionsFromAIResponse aiResponse = Return (primary :: rest))
    as (primary & rest & Hregions) by (vm_compute; eauto).
  exists primary, rest. split; [exact Hregions|].
  exact (pathologyName_label aiResponse primary rest Hregions).
Defined.
